(** * Verification of the hack-verdict quality-control scripts

    The development embeds the three Python scripts
    [llm_quality_control.py], [quality_control_evaluator.py] and
    [education_test_generator.py].  The [verdict] package and the OpenAI
    client they import are external collaborators: their calls are taken
    as stateful oracles over an abstract [World], and every call that is
    made is recorded in the trace of the computation. *)

From Stdlib Require Import ZArith Lia.
From stdpp Require Import base gmap strings list pretty.

Local Open Scope Z_scope.

(** ** Python values and control effects *)

(** A flat Python [dict] from [str] to [str]. *)
Abbreviation Dict := (gmap string string).

Inductive PyExn : Type :=
| UnboundLocalError (name : string)
| KeyError (key : string)
| Exception (msg : string).

(** What an external call hands back: a value, or a raised exception. *)
Inductive Outcome (A : Type) : Type :=
| Returns (a : A)
| Raises (e : PyExn).
Arguments Returns {A} a.
Arguments Raises {A} e.

(** What a modelled computation ends in.  [OutOfFuel] is the model's own
    marker for a loop that was cut off; no Python code produces it. *)
Inductive Res (A : Type) : Type :=
| Ok (a : A)
| Raise (e : PyExn)
| OutOfFuel.
Arguments Ok {A} a.
Arguments Raise {A} e.
Arguments OutOfFuel {A}.

(** Truthiness of a [str], of [None | str], and of [None | dict]. *)
Definition truthy_str (s : string) : bool := negb (String.eqb s "").

Definition truthy_opt_str (o : option string) : bool :=
  match o with
  | None => false
  | Some s => truthy_str s
  end.

Definition truthy_opt_dict (o : option Dict) : bool :=
  match o with
  | None => false
  | Some d => negb (bool_decide (d = ∅))
  end.

(** [d.get(key, '')]. *)
Definition dict_get (d : Dict) (key : string) : string := default "" (d !! key).

(** ** The interface of the [verdict] package *)

Module verdict.

(** The configuration objects of the [verdict] package ([DiscreteScale],
    [CategoricalJudgeUnit], [Layer], [Pipeline], [Schema]) are declared
    outside the repository.  Section 3 of the specification gives their
    content: a unit has a name, an ordered set of labels, a prompt template
    and a flag telling whether it produces an explanation; a stage is a
    single unit or a layer of units; a pipeline is a named, ordered
    sequence of stages; an input record maps field names to text. *)

(** Modelled from the spec: [DiscreteScale], the finite ordered set of
    categorical labels of a unit (declared in the [verdict] package). *)
Definition DiscreteScale (labels : list string) : list string := labels.

(** Modelled from the spec: a judge unit (declared in the [verdict]
    package), with its kind and name, its labels, its explanation flag, its
    prompt template and the model and retry count it was given. *)
Record JudgeUnit : Type := {
  unit_kind : string;
  unit_name : string;
  categories : list string;
  explanation : bool;
  unit_prompt : string;
  unit_model : option (string * Z)
}.

(** Modelled from the spec: the constructor
    [CategoricalJudgeUnit(name=, categories=, explanation=)] of the
    [verdict] package; the kind is the one the result keys show. *)
Definition CategoricalJudgeUnit (name : string) (categories : list string)
    (explanation : bool) : JudgeUnit :=
  {| unit_kind := "CategoricalJudge"; unit_name := name;
     categories := categories; explanation := explanation;
     unit_prompt := ""; unit_model := None |}.

(** Modelled from the spec: [unit.prompt(text)] of the [verdict] package
    sets the prompt template. *)
Definition prompt (u : JudgeUnit) (text : string) : JudgeUnit :=
  {| unit_kind := unit_kind u; unit_name := unit_name u;
     categories := categories u; explanation := explanation u;
     unit_prompt := text; unit_model := unit_model u |}.


(** Modelled from the spec: a stage (declared in the [verdict] package)
    is a single unit or a layer of units. *)
Inductive Stage : Type :=
| Unit (u : JudgeUnit)
| Layer (units : list JudgeUnit).

(** Modelled from the spec: a pipeline (declared in the [verdict] package)
    is a name and an ordered sequence of stages. *)
Record Pipeline : Type := {
  pipeline_name : string;
  stages : list Stage
}.

(** Modelled from the spec: [Pipeline(name)] of the [verdict] package, a
    pipeline with no stage yet. *)
Definition Pipeline_new (name : string) : Pipeline :=
  {| pipeline_name := name; stages := [] |}.

(** Modelled from the spec: [pipeline >> stage] of the [verdict] package
    appends a stage (static composition, section 1). *)
Definition rshift (p : Pipeline) (s : Stage) : Pipeline :=
  {| pipeline_name := pipeline_name p; stages := stages p ++ [s] |}.

(** Modelled from the spec: [Schema.of(field=value, ...)] of the [verdict]
    package builds the input record, a mapping from field names to text. *)
Definition Schema_of (fields : list (string * string)) : Dict :=
  list_to_map fields.

(** Modelled from the spec: the second component of what [Pipeline.run]
    of the [verdict] package returns, the bookkeeping of section 3: for
    every unit that was run, its path and whether it succeeded. *)
Definition Diagnostics : Type := list (string * bool).

End verdict.

Infix ">>" := verdict.rshift (at level 50, left associativity).

(** ** Traces and the effect monad *)

Record Message : Type := { role : string; content : string }.

(** One event per call that leaves the program. *)
Inductive Event : Type :=
| EvRun (p : verdict.Pipeline) (input : Dict) (max_workers : Z) (graceful : bool)
        (out : Outcome (Dict * verdict.Diagnostics))
| EvCreate (model : string) (messages : list Message) (out : Outcome (option string)).

Definition is_run (e : Event) : bool :=
  match e with EvRun _ _ _ _ _ => true | EvCreate _ _ _ => false end.

Definition is_create (e : Event) : bool :=
  match e with EvRun _ _ _ _ _ => false | EvCreate _ _ _ => true end.

(** Number of pipeline runs, and of generation calls, in a trace. *)
Definition evaluations (t : list Event) : nat := length (List.filter is_run t).
Definition regenerations (t : list Event) : nat := length (List.filter is_create t).

Section Effects.
Context {World : Type}.

(** A computation reads and updates the world of the external services
    and emits the events of the calls it made, oldest first. *)
Definition M (A : Type) : Type := World -> Res A * World * list Event.

Definition ret {A} (a : A) : M A := fun w => (Ok a, w, []).

Definition raise {A} (e : PyExn) : M A := fun w => (Raise e, w, []).

Definition out_of_fuel {A} : M A := fun w => (OutOfFuel, w, []).

Definition bind {A B} (m : M A) (k : A -> M B) : M B :=
  fun w =>
    match m w with
    | (Ok a, w1, t1) =>
        match k a w1 with
        | (r, w2, t2) => (r, w2, t1 ++ t2)
        end
    | (Raise e, w1, t1) => (Raise e, w1, t1)
    | (OutOfFuel, w1, t1) => (OutOfFuel, w1, t1)
    end.

(** [try: m except Exception as e: h e] *)
Definition try_except {A} (m : M A) (h : PyExn -> M A) : M A :=
  fun w =>
    match m w with
    | (Raise e, w1, t1) =>
        match h e w1 with
        | (r, w2, t2) => (r, w2, t1 ++ t2)
        end
    | other => other
    end.

(** An external call: run the oracle, record the event. *)
Definition external {A} (oracle : World -> Outcome A * World)
    (ev : Outcome A -> Event) : M A :=
  fun w =>
    match oracle w with
    | (Returns a, w1) => (Ok a, w1, [ev (Returns a)])
    | (Raises e, w1) => (Raise e, w1, [ev (Raises e)])
    end.

(** [d[key]] *)
Definition getitem (d : Dict) (key : string) : M string :=
  match d !! key with
  | Some v => ret v
  | None => raise (KeyError key)
  end.

End Effects.

Arguments M : clear implicits.

Notation "'let*' x ':=' m 'in' k" := (bind m (fun x => k))
  (at level 10, x pattern, m at level 100, k at level 200).

(** ** llm_quality_control.py *)

Module llm_quality_control.

(** Initial flawed content about photosynthesis. *)
Definition INITIAL_CONTENT : string :=
"
Subject: Biology
Grade Level: 7th Grade
Topic: Photosynthesis
Content: Photosynthesis is how plants make food. They use sunlight and water to create glucose. 
The process happens in the plant's leaves where special cells capture sunlight. 
The glucose is then used by the plant for energy or stored for later.

Expected Learning Outcomes:
1. Understand that plants make their own food
2. Know that sunlight is important for plants
3. Learn that glucose is created during photosynthesis
".

Definition quality_judge_prompt : string :=
"
            You are an expert educational content reviewer. Evaluate this content for accuracy, 
            completeness, and educational value.
            
            Content to Review: {source.content}
            Requirements: {source.requirements}
            
            Consider these aspects:
            1. Scientific accuracy
            2. Completeness of explanation
            3. Grade-appropriate language
            4. Key concepts coverage
            5. Potential misconceptions
            6. Learning outcome alignment
            
            First provide a detailed analysis of any issues found, then decide:
            - pass: Content meets educational standards and is scientifically accurate
            - revise: Content needs improvements (specify exactly what needs to change)
        ".

Definition improve_prompt_head : string :=
"
        Improve this educational content based on the reviewer's feedback:

        Original Content:
        ".

Definition improve_prompt_middle : string :=
"

        Reviewer's Feedback:
        ".

Definition improve_prompt_tail : string :=
"

        Requirements:
        - Fix all scientific inaccuracies
        - Add missing key concepts
        - Maintain grade-appropriate language
        - Address all identified issues
        - Keep the same format but improve the content

        Provide the improved version while maintaining the same structure.
        ".

(** The attributes of a [ContentQualityControl] object.  [self.client] is
    the handle of the generation service; the one method called on it is
    the oracle [chat_completions_create] below. *)
Record ContentQualityControl : Type := {
  content_type : string;
  max_iterations : Z;
  pipeline : verdict.Pipeline
}.

(** The quality assessment judge that [create_pipeline] builds. *)
Definition quality_judge : verdict.JudgeUnit :=
  verdict.prompt
    (verdict.CategoricalJudgeUnit "QualityJudge"
       (verdict.DiscreteScale ["pass"; "revise"]) true)
    quality_judge_prompt.

Definition create_pipeline : verdict.Pipeline :=
  let pipeline := verdict.Pipeline_new "QualityControl" in
  let pipeline := pipeline >> verdict.Layer [quality_judge] in
  pipeline.

(** [__init__(self, content_type="text", max_iterations=3)] *)
Definition init (content_type : string) (max_iterations : Z) : ContentQualityControl :=
  {| content_type := content_type; max_iterations := max_iterations;
     pipeline := create_pipeline |}.

Definition init_default : ContentQualityControl := init "text" 3.

Definition base_path : string :=
  "QualityControl_root.block.layer[0].unit[CategoricalJudge QualityJudge]".

(** A local variable of a running function. *)
Inductive Local (A : Type) : Type :=
| Unbound
| Bound (v : A).
Arguments Unbound {A}.
Arguments Bound {A} v.

(** The locals of [improve_content]. *)
Record Locals : Type := {
  iterations : Z;
  current_content : string;
  result : Local (option Dict)
}.

(** How one pass through the loop body ends: at the loop test again, or
    at a [return]; both with the locals as they are at that point. *)
Inductive Flow : Type :=
| Next (st : Locals)
| Return (st : Locals) (v : option Dict).

Section Methods.
Context {World : Type}.

(** [Pipeline.run(input, max_workers=, graceful=)] of the [verdict]
    package. *)
Variable pipeline_run :
  verdict.Pipeline -> Dict -> Z -> bool ->
  World -> Outcome (Dict * verdict.Diagnostics) * World.

(** [client.chat.completions.create(model=, messages=)] followed by
    [.choices[0].message.content]. *)
Variable chat_completions_create :
  string -> list Message -> World -> Outcome (option string) * World.

Definition improvement_prompt (original_content feedback : string) : string :=
  improve_prompt_head +:+ original_content +:+ improve_prompt_middle
    +:+ feedback +:+ improve_prompt_tail.

Definition generate_improved_content (self : ContentQualityControl)
    (original_content feedback : string) : M World (option string) :=
  let prompt := improvement_prompt original_content feedback in
  try_except
    (let messages := [{| role := "user"; content := prompt |}] in
     let* response :=
       external (chat_completions_create "gpt-4o-mini" messages)
                (EvCreate "gpt-4o-mini" messages) in
     ret response)
    (fun e => ret None).

Definition evaluate_content (self : ContentQualityControl)
    (content requirements : string) : M World (option Dict) :=
  try_except
    (let input :=
       verdict.Schema_of [("content", content);
                          ("requirements", requirements);
                          ("content_type", content_type self)] in
     let* (result, _) :=
       external (pipeline_run (pipeline self) input 1 true)
                (EvRun (pipeline self) input 1 true) in
     let verdict := dict_get result (base_path +:+ "_choice") in
     let explanation := dict_get result (base_path +:+ "_explanation") in
     if negb (truthy_str verdict) || negb (truthy_str explanation) then
       ret None
     else
       ret (Some ({[ "verdict" := verdict;
                     "explanation" := explanation;
                     "content" := content ]} : Dict)))
    (fun e => ret None).

(** Lines 133-166: the body of the [while] loop.  Console output is not
    modelled; the subscripts the [print] calls evaluate are. *)
Definition loop_body (self : ContentQualityControl) (requirements : string)
    (st : Locals) : M World Flow :=
  let st := {| iterations := iterations st + 1;
               current_content := current_content st;
               result := result st |} in
  let* r := evaluate_content self (current_content st) requirements in
  let st := {| iterations := iterations st;
               current_content := current_content st;
               result := Bound r |} in
  match r with
  | None => ret (Return st None)
  | Some d =>
      if negb (truthy_opt_dict r) then ret (Return st None) else
      let* _ := getitem d "verdict" in
      let* _ := getitem d "explanation" in
      let* verdict := getitem d "verdict" in
      if String.eqb verdict "pass" then ret (Return st r) else
      let* feedback := getitem d "explanation" in
      let* improved_content :=
        generate_improved_content self (current_content st) feedback in
      match improved_content with
      | None => ret (Return st None)
      | Some c =>
          if negb (truthy_opt_str improved_content) then ret (Return st None)
          else ret (Next {| iterations := iterations st;
                            current_content := c;
                            result := result st |})
      end
  end.

(** Line 169: [return result] after the loop. *)
Definition after_loop (st : Locals) : M World (option Dict) :=
  match result st with
  | Unbound => raise (UnboundLocalError "result")
  | Bound v => ret v
  end.

(** Line 132: [while iterations < self.max_iterations]. *)
Fixpoint while_loop (fuel : nat) (self : ContentQualityControl)
    (requirements : string) (st : Locals) : M World (option Dict) :=
  if iterations st <? max_iterations self then
    match fuel with
    | O => out_of_fuel
    | S fuel' =>
        let* flow := loop_body self requirements st in
        match flow with
        | Return _ v => ret v
        | Next st' => while_loop fuel' self requirements st'
        end
    end
  else after_loop st.

Definition initial_locals (content : string) : Locals :=
  {| iterations := 0; current_content := content; result := Unbound |}.

(** Every cycle raises [iterations] by one, so [max_iterations] cycles are
    all the loop can make: with this fuel it is never cut off. *)
Definition improve_content (self : ContentQualityControl)
    (content requirements : string) : M World (option Dict) :=
  while_loop (Z.to_nat (max_iterations self)) self requirements
             (initial_locals content).

End Methods.

End llm_quality_control.

(** ** quality_control_evaluator.py *)

Module quality_control_evaluator.

Definition meta_judge_prompt : string :=
"
            Evaluate the reliability of this quality control assessment.
            
            Original Content: {source.content}
            QC System Assessment: {source.qc_assessment}
            QC Decision: {source.qc_decision}
            Content Requirements: {source.requirements}
            
            Consider these meta-evaluation criteria:
            1. Assessment Completeness
            - Does the QC system consider all important aspects?
            - Are there overlooked issues or blind spots?
            
            2. Reasoning Quality
            - Is the assessment logically sound?
            - Are conclusions well-supported?
            
            3. Standards Alignment
            - Does the assessment align with requirements?
            - Are quality standards consistently applied?
            
            4. Failure Detection
            - Are subtle issues caught?
            - Are there false positives/negatives?
            
            5. Feedback Quality
            - Is feedback specific and actionable?
            - Are improvement suggestions clear?
            
            First provide detailed analysis, then rate as:
            - reliable: QC assessment is thorough and trustworthy
            - questionable: Some concerns about QC assessment
            - failure: Significant QC system failures detected
        ".

Definition failure_analyzer_prompt : string :=
"
            Analyze the type of quality control failure detected.
            
            Original Content: {source.content}
            QC System Assessment: {source.qc_assessment}
            Meta-Evaluation: {previous.explanation}
            
            Identify failure patterns:
            1. Systematic Failures
            - Consistent blind spots
            - Recurring assessment gaps
            - Pattern of missed issues
            
            2. Contextual Failures
            - Domain-specific misunderstandings
            - Context-dependent errors
            - Scope limitations
            
            3. Random Failures
            - Inconsistent assessments
            - Unpredictable errors
            - No clear pattern
            
            First explain the failure analysis, then categorize as:
            - systematic: Clear pattern of similar failures
            - contextual: Context-dependent failures
            - random: No consistent pattern
        ".

Record QualityControlEvaluator : Type := {
  pipeline : verdict.Pipeline
}.

(** Meta-evaluator to assess QC system decisions. *)
Definition meta_judge : verdict.JudgeUnit :=
  verdict.prompt
    (verdict.CategoricalJudgeUnit "MetaJudge"
       (verdict.DiscreteScale ["reliable"; "questionable"; "failure"]) true)
    meta_judge_prompt.

(** Specific failure analysis judge. *)
Definition failure_analyzer : verdict.JudgeUnit :=
  verdict.prompt
    (verdict.CategoricalJudgeUnit "FailureAnalyzer"
       (verdict.DiscreteScale ["systematic"; "contextual"; "random"]) true)
    failure_analyzer_prompt.

Definition create_evaluation_pipeline : verdict.Pipeline :=
  let pipeline := verdict.Pipeline_new "QCEvaluator" in
  let pipeline := pipeline >> verdict.Layer [meta_judge] in
  let pipeline := pipeline >> verdict.Layer [failure_analyzer] in
  pipeline.

Definition init : QualityControlEvaluator :=
  {| pipeline := create_evaluation_pipeline |}.

Definition base_path : string := "QCEvaluator_root.block.layer".

Section Methods.
Context {World : Type}.

Variable pipeline_run :
  verdict.Pipeline -> Dict -> Z -> bool ->
  World -> Outcome (Dict * verdict.Diagnostics) * World.

Definition evaluate_qc_system (self : QualityControlEvaluator)
    (content qc_assessment qc_decision requirements : string)
    : M World (option (gmap string Dict)) :=
  try_except
    (let input :=
       verdict.Schema_of [("content", content);
                          ("qc_assessment", qc_assessment);
                          ("qc_decision", qc_decision);
                          ("requirements", requirements)] in
     let* (result, _) :=
       external (pipeline_run (pipeline self) input 1 true)
                (EvRun (pipeline self) input 1 true) in
     let meta_verdict :=
       dict_get result (base_path +:+ "[0].unit[CategoricalJudge MetaJudge]_choice") in
     let meta_explanation :=
       dict_get result (base_path +:+ "[0].unit[CategoricalJudge MetaJudge]_explanation") in
     let failure_type :=
       dict_get result (base_path +:+ "[1].unit[CategoricalJudge FailureAnalyzer]_choice") in
     let failure_explanation :=
       dict_get result
         (base_path +:+ "[1].unit[CategoricalJudge FailureAnalyzer]_explanation") in
     ret (Some ({[ "meta_evaluation" :=
                     ({[ "verdict" := meta_verdict;
                         "explanation" := meta_explanation ]} : Dict);
                   "failure_analysis" :=
                     ({[ "type" := failure_type;
                         "explanation" := failure_explanation ]} : Dict) ]}
                : gmap string Dict)))
    (fun e => ret None).

End Methods.

End quality_control_evaluator.

(** ** education_test_generator.py *)

Module education_test_generator.





Section Methods.
Context {World : Type}.

Variable pipeline_run :
  verdict.Pipeline -> Dict -> Z -> bool ->
  World -> Outcome (Dict * verdict.Diagnostics) * World.


End Methods.

End education_test_generator.

(** ** The pipeline executor *)

Module executor.
Import verdict.

(** Modelled from the spec: what a unit of the [verdict] package is given
    (section 4.1): the fields of the input record and the explanations
    produced by the stage immediately before its own. *)
Record Context : Type := {
  source : Dict;
  previous : list string
}.

(** Modelled from the spec: the result addressing scheme of the executor,
    which is part of the [verdict] package and not of the repository.
    There (section 4.2) a key is built from the pipeline name, the stage position
    (block and layer index), the unit kind and name, in that order, and a
    [_choice] or [_explanation] suffix.  The punctuation between the parts
    is the one of the keys the three scripts look up: a layer at position
    [i] contributes [.layer[i]], a stage that is a bare unit contributes
    nothing. *)
Definition stage_segment (stage : Stage) (position : nat) : string :=
  match stage with
  | Unit _ => ""
  | Layer _ => ".layer[" +:+ pretty position +:+ "]"
  end.

(** Modelled from the spec: the part of a key of the [verdict] executor
    that names the unit, by kind and name. *)
Definition unit_segment (u : JudgeUnit) : string :=
  ".unit[" +:+ unit_kind u +:+ " " +:+ unit_name u +:+ "]".

(** Modelled from the spec: the path of a unit in the result map of the
    [verdict] executor: pipeline name, stage position, unit. *)
Definition unit_path (pipeline : string) (stage : Stage) (position : nat)
    (u : JudgeUnit) : string :=
  pipeline +:+ "_root.block" +:+ stage_segment stage position +:+ unit_segment u.


(** Modelled from the spec: the units a stage of the [verdict] executor
    runs. *)
Definition units_of (stage : Stage) : list JudgeUnit :=
  match stage with
  | Unit u => [u]
  | Layer units => units
  end.

(** Modelled from the spec: what the [verdict] executor has collected so
    far: the result map, the bookkeeping, and the explanations of the
    stage being run. *)
Record Progress : Type := {
  values : Dict;
  diagnostics : Diagnostics;
  explanations : list string
}.

(** Modelled from the spec: the [verdict] executor starts from an empty
    result (section 4.2, zero stages). *)
Definition no_progress : Progress :=
  {| values := ∅; diagnostics := []; explanations := [] |}.

(** Modelled from the spec: a unit of the [verdict] executor that answered
    contributes its choice, and its explanation when it produces one. *)
Definition record_success (path : string) (u : JudgeUnit)
    (label expl : string) (acc : Progress) : Progress :=
  let m := <[path +:+ "_choice" := label]> (values acc) in
  if explanation u then
    {| values := <[path +:+ "_explanation" := expl]> m;
       diagnostics := diagnostics acc ++ [(path, true)];
       explanations := explanations acc ++ [expl] |}
  else
    {| values := m;
       diagnostics := diagnostics acc ++ [(path, true)];
       explanations := explanations acc |}.

(** Modelled from the spec: in graceful mode the [verdict] executor records
    a failed unit under its path and contributes no value for it. *)
Definition record_failure (path : string) (acc : Progress) : Progress :=
  {| values := values acc;
     diagnostics := diagnostics acc ++ [(path, false)];
     explanations := explanations acc |}.

Section Run.
Context {World : Type}.

(** The contract of a judge unit (section 4.1):
    [evaluate(context) -> (label, explanation) | Failure], with one
    external generation call behind it. *)
Variable evaluate :
  JudgeUnit -> Context -> World -> Outcome (string * string) * World.

(** Modelled from the spec: the executor of section 4.2, part of the
    [verdict] package and absent from the repository.  The units of a stage all get the same context and are
    collected by key; in graceful mode a failing unit is recorded and
    the run goes on, otherwise the failure reaches the caller. *)
Fixpoint run_units (graceful : bool) (pipeline : string) (stage : Stage)
    (position : nat) (ctx : Context) (units : list JudgeUnit)
    (acc : Progress) (w : World) : Outcome Progress * World :=
  match units with
  | [] => (Returns acc, w)
  | u :: rest =>
      let path := unit_path pipeline stage position u in
      match evaluate u ctx w with
      | (Returns (label, expl), w1) =>
          run_units graceful pipeline stage position ctx rest
                    (record_success path u label expl acc) w1
      | (Raises e, w1) =>
          if graceful then
            run_units graceful pipeline stage position ctx rest
                      (record_failure path acc) w1
          else (Raises e, w1)
      end
  end.

(** Modelled from the spec: the [verdict] executor is absent from the
    repository; its stages run strictly in declared order, and
    a stage reads the input record and the explanations of the stage
    immediately before it (section 4.2). *)
Fixpoint run_stages (graceful : bool) (pipeline : string) (input : Dict)
    (position : nat) (todo : list Stage) (acc : Progress) (w : World)
    : Outcome Progress * World :=
  match todo with
  | [] => (Returns acc, w)
  | stage :: rest =>
      let ctx := {| source := input; previous := explanations acc |} in
      let start := {| values := values acc; diagnostics := diagnostics acc;
                      explanations := [] |} in
      match run_units graceful pipeline stage position ctx (units_of stage) start w with
      | (Returns acc', w1) =>
          run_stages graceful pipeline input (S position) rest acc' w1
      | (Raises e, w1) => (Raises e, w1)
      end
  end.

(** Modelled from the spec: [Pipeline.run] of the [verdict] package;
    [run(pipeline, input_record, graceful, max_workers)] returns the
    result map and the diagnostics (section 4.2).  [max_workers] only
    bounds concurrency inside a layer and does not change what is
    collected. *)
Definition run (p : Pipeline) (input : Dict) (max_workers : Z)
    (graceful : bool) (w : World) : Outcome (Dict * Diagnostics) * World :=
  match run_stages graceful (pipeline_name p) input 0 (stages p) no_progress w with
  | (Returns acc, w1) => (Returns (values acc, diagnostics acc), w1)
  | (Raises e, w1) => (Raises e, w1)
  end.

End Run.

End executor.

(** ** Vocabulary of the statements *)

Module loop_spec.
Import llm_quality_control.

(** The input record [evaluate_content] submits. *)
Definition submitted (self : ContentQualityControl)
    (content requirements : string) : Dict :=
  verdict.Schema_of [("content", content);
                     ("requirements", requirements);
                     ("content_type", content_type self)].

(** The dict [evaluate_content] returns on success. *)
Definition assessment (verdict explanation content : string) : Dict :=
  {[ "verdict" := verdict; "explanation" := explanation; "content" := content ]}.

Definition user_message (prompt : string) : list Message :=
  [{| role := "user"; content := prompt |}].

(** The locals once a cycle has evaluated, and once it has regenerated. *)
Definition evaluated (st : Locals) (r : option Dict) : Locals :=
  {| iterations := iterations st + 1;
     current_content := current_content st;
     result := Bound r |}.

Definition regenerated (st : Locals) (r : option Dict) (c : string) : Locals :=
  {| iterations := iterations st + 1;
     current_content := c;
     result := Bound r |}.

Definition locals_of (flow : Flow) : Locals :=
  match flow with
  | Next st => st
  | Return st _ => st
  end.

(** A generation call that leaves [generate_improved_content] without
    usable content: it raised, gave [None], or gave the empty string. *)
Definition generation_failed (out : Outcome (option string)) : bool :=
  match out with
  | Returns (Some c) => negb (truthy_str c)
  | Returns None => true
  | Raises _ => true
  end.

(** A pipeline run from which [evaluate_content] gets no result: it
    raised, or the verdict or the explanation is absent or empty. *)
Definition unusable (out : Outcome (Dict * verdict.Diagnostics)) : Prop :=
  match out with
  | Raises _ => True
  | Returns (m, _) =>
      m !! (base_path +:+ "_choice") = None ∨
      m !! (base_path +:+ "_choice") = Some "" ∨
      m !! (base_path +:+ "_explanation") = None ∨
      m !! (base_path +:+ "_explanation") = Some ""
  end.

(** The shape of a trace of the refinement loop that starts by
    evaluating [cur]: runs and generation calls alternate, every run
    submits the current content, every generation call is about the
    current content, and a run that follows a generation call submits
    what that call produced. *)
Fixpoint alternating (cur : string) (t : list Event) : Prop :=
  match t with
  | [] => True
  | EvRun _ input _ _ _ :: rest =>
      input !! "content" = Some cur ∧
      match rest with
      | [] => True
      | EvCreate _ messages out :: rest' =>
          (∃ feedback, messages = user_message (improvement_prompt cur feedback)) ∧
          match rest' with
          | [] => True
          | _ :: _ => ∃ c, out = Returns (Some c) ∧ c ≠ "" ∧ alternating c rest'
          end
      | EvRun _ _ _ _ _ :: _ => False
      end
  | EvCreate _ _ _ :: _ => False
  end.

Section Relations.
Context {World : Type}.

Variable pipeline_run :
  verdict.Pipeline -> Dict -> Z -> bool ->
  World -> Outcome (Dict * verdict.Diagnostics) * World.

Variable chat_completions_create :
  string -> list Message -> World -> Outcome (option string) * World.

(** The four ways a cycle that starts with locals [st] in world [w]
    can end. *)
Inductive cycle_ends (self : ContentQualityControl) (requirements : string)
    (st : Locals) (w : World) : Res Flow * World * list Event -> Prop :=
| ends_unevaluated out w1 :
    pipeline_run (pipeline self)
      (submitted self (current_content st) requirements) 1 true w = (out, w1) ->
    unusable out ->
    cycle_ends self requirements st w
      (Ok (Return (evaluated st None) None), w1,
       [EvRun (pipeline self)
          (submitted self (current_content st) requirements) 1 true out])
| ends_passed m diag e w1 :
    pipeline_run (pipeline self)
      (submitted self (current_content st) requirements) 1 true w
      = (Returns (m, diag), w1) ->
    m !! (base_path +:+ "_choice") = Some "pass" ->
    m !! (base_path +:+ "_explanation") = Some e ->
    e ≠ "" ->
    cycle_ends self requirements st w
      (Ok (Return (evaluated st (Some (assessment "pass" e (current_content st))))
                  (Some (assessment "pass" e (current_content st)))), w1,
       [EvRun (pipeline self)
          (submitted self (current_content st) requirements) 1 true
          (Returns (m, diag))])
| ends_aborted m diag v e w1 out w2 :
    pipeline_run (pipeline self)
      (submitted self (current_content st) requirements) 1 true w
      = (Returns (m, diag), w1) ->
    m !! (base_path +:+ "_choice") = Some v ->
    m !! (base_path +:+ "_explanation") = Some e ->
    v ≠ "" -> v ≠ "pass" -> e ≠ "" ->
    chat_completions_create "gpt-4o-mini"
      (user_message (improvement_prompt (current_content st) e)) w1 = (out, w2) ->
    generation_failed out = true ->
    cycle_ends self requirements st w
      (Ok (Return (evaluated st (Some (assessment v e (current_content st)))) None),
       w2,
       [EvRun (pipeline self)
          (submitted self (current_content st) requirements) 1 true
          (Returns (m, diag));
        EvCreate "gpt-4o-mini"
          (user_message (improvement_prompt (current_content st) e)) out])
| ends_regenerated m diag v e w1 c w2 :
    pipeline_run (pipeline self)
      (submitted self (current_content st) requirements) 1 true w
      = (Returns (m, diag), w1) ->
    m !! (base_path +:+ "_choice") = Some v ->
    m !! (base_path +:+ "_explanation") = Some e ->
    v ≠ "" -> v ≠ "pass" -> e ≠ "" ->
    chat_completions_create "gpt-4o-mini"
      (user_message (improvement_prompt (current_content st) e)) w1
      = (Returns (Some c), w2) ->
    c ≠ "" ->
    cycle_ends self requirements st w
      (Ok (Next (regenerated st (Some (assessment v e (current_content st))) c)),
       w2,
       [EvRun (pipeline self)
          (submitted self (current_content st) requirements) 1 true
          (Returns (m, diag));
        EvCreate "gpt-4o-mini"
          (user_message (improvement_prompt (current_content st) e))
          (Returns (Some c))]).

(** The loop heads a run of [improve_content] passes through, each with
    the world it is reached in and the events emitted until then. *)
Inductive visits (self : ContentQualityControl) (content requirements : string)
    (w0 : World) : Locals -> World -> list Event -> Prop :=
| visits_start :
    visits self content requirements w0 (initial_locals content) w0 []
| visits_next st w t st' w' t' :
    visits self content requirements w0 st w t ->
    iterations st < max_iterations self ->
    loop_body pipeline_run chat_completions_create self requirements st w
      = (Ok (Next st'), w', t') ->
    visits self content requirements w0 st' w' (t ++ t').

(** The judge answers every run with [label] and some explanation. *)
Definition judge_always (label : string) : Prop :=
  ∀ p input max_workers graceful w,
    ∃ m diag e w1,
      pipeline_run p input max_workers graceful w = (Returns (m, diag), w1) ∧
      m !! (base_path +:+ "_choice") = Some label ∧
      m !! (base_path +:+ "_explanation") = Some e ∧ e ≠ "".

(** The improvement capability always produces content. *)
Definition improvement_always_succeeds : Prop :=
  ∀ model messages w,
    ∃ c w1,
      chat_completions_create model messages w = (Returns (Some c), w1) ∧ c ≠ "".

End Relations.

End loop_spec.

Module pipeline_spec.
Import verdict executor.

(** The explanations a stage with one unit hands to the next stage. *)
Definition handed_on (out : Outcome (string * string)) : list string :=
  match out with
  | Returns (_, e) => [e]
  | Raises _ => []
  end.

Definition succeeded (out : Outcome (string * string)) : bool :=
  match out with
  | Returns _ => true
  | Raises _ => false
  end.

(** The two fields a unit contributes to the result map. *)
Definition fields : list string := ["choice"; "explanation"].


(** The input record [evaluate_qc_system] submits. *)
Definition audited (content qc_assessment qc_decision requirements : string) : Dict :=
  Schema_of [("content", content);
             ("qc_assessment", qc_assessment);
             ("qc_decision", qc_decision);
             ("requirements", requirements)].

(** What the meta-evaluation run collects from the answers of its two
    units. *)
Definition collected (o1 o2 : Outcome (string * string)) : Dict :=
  let after1 :=
    match o1 with
    | Returns (label, expl) =>
        <["QCEvaluator_root.block.layer[0].unit[CategoricalJudge MetaJudge]_explanation"
          := expl]>
          (<["QCEvaluator_root.block.layer[0].unit[CategoricalJudge MetaJudge]_choice"
             := label]> ∅)
    | Raises _ => ∅
    end in
  match o2 with
  | Returns (label, expl) =>
      <["QCEvaluator_root.block.layer[1].unit[CategoricalJudge FailureAnalyzer]_explanation"
        := expl]>
        (<["QCEvaluator_root.block.layer[1].unit[CategoricalJudge FailureAnalyzer]_choice"
           := label]> after1)
  | Raises _ => after1
  end.

Section Judges.
Context {World : Type}.

Variable evaluate :
  JudgeUnit -> Context -> World -> Outcome (string * string) * World.

(** A deterministic judge: what a unit answers depends on the unit and
    on its context, not on the state of the world, hence not on how
    often it was called before. *)
Definition deterministic_judge : Prop :=
  ∀ u ctx w1 w2, (evaluate u ctx w1).1 = (evaluate u ctx w2).1.

End Judges.

End pipeline_spec.

(** ** Stand-ins for the external services *)

Module mocks.

(** What a run of the quality pipeline returns when its judge answers
    [label] with [explanation]. *)
Definition judged (label explanation : string) : Dict * verdict.Diagnostics :=
  ({[ llm_quality_control.base_path +:+ "_choice" := label;
      llm_quality_control.base_path +:+ "_explanation" := explanation ]},
   [(llm_quality_control.base_path, true)]).

(** A judge that answers [revise] whatever it is shown. *)
Definition judge_always_revise (p : verdict.Pipeline) (input : Dict)
    (max_workers : Z) (graceful : bool) (w : unit)
    : Outcome (Dict * verdict.Diagnostics) * unit :=
  (Returns (judged "revise" "The role of chlorophyll is missing."), w).

(** A judge that answers [revise] to its first call and [pass] afterwards;
    the world counts the calls. *)
Definition judge_revise_then_pass (p : verdict.Pipeline) (input : Dict)
    (max_workers : Z) (graceful : bool) (calls : nat)
    : Outcome (Dict * verdict.Diagnostics) * nat :=
  match calls with
  | O => (Returns (judged "revise" "The role of chlorophyll is missing."), S calls)
  | S _ => (Returns (judged "pass" "Accurate and complete."), S calls)
  end.

(** A pipeline whose run raises. *)
Definition judge_unreachable (p : verdict.Pipeline) (input : Dict)
    (max_workers : Z) (graceful : bool) (w : unit)
    : Outcome (Dict * verdict.Diagnostics) * unit :=
  (Raises (Exception "connection refused"), w).

(** A generation service that always answers, and one that is down. *)
Definition generator_ok {World : Type} (model : string) (messages : list Message)
    (w : World) : Outcome (option string) * World :=
  (Returns (Some "Plants use chlorophyll, water, CO2 and sunlight."), w).

Definition generator_down {World : Type} (model : string) (messages : list Message)
    (w : World) : Outcome (option string) * World :=
  (Raises (Exception "service unavailable"), w).

(** A judge unit with a fixed answer per unit: the meta judge finds the
    assessment reliable, every other unit answers [label]. *)
Definition unit_fixed (label : string) (u : verdict.JudgeUnit)
    (ctx : executor.Context) (w : unit) : Outcome (string * string) * unit :=
  if String.eqb (verdict.unit_name u) "MetaJudge"
  then (Returns ("reliable", "The assessment covers every requirement."), w)
  else (Returns (label, "No recurring pattern."), w).

(** The locals at the second loop head of a run on [INITIAL_CONTENT]
    against [judge_always_revise] and [generator_ok]. *)
Definition second_head : llm_quality_control.Locals :=
  loop_spec.regenerated
    (llm_quality_control.initial_locals llm_quality_control.INITIAL_CONTENT)
    (Some (loop_spec.assessment "revise" "The role of chlorophyll is missing."
             llm_quality_control.INITIAL_CONTENT))
    "Plants use chlorophyll, water, CO2 and sunlight.".

(** A judge unit that always gives the same answer and counts its calls
    in the world. *)
Definition unit_counting (u : verdict.JudgeUnit) (ctx : executor.Context)
    (calls : nat) : Outcome (string * string) * nat :=
  (Returns ("pass", "Accurate and complete."), S calls).

End mocks.

(** ** The callers: the two [main] functions *)

(** [s * n] on a [str]. *)
Fixpoint str_mul (s : string) (n : nat) : string :=
  match n with
  | O => ""
  | S n' => s +:+ str_mul s n'
  end.

(** The newline character of the escapes in the printed texts. *)
Definition newline : string := String (Ascii.ascii_of_nat 10) "".

Section Subscript.
Context {World : Type} {V : Type}.

(** [d[key]] on a [dict] with values of any kind. *)
Definition getitem_of (d : gmap string V) (key : string) : M World V :=
  match d !! key with
  | Some v => ret v
  | None => raise (KeyError key)
  end.

End Subscript.

Module llm_quality_control_main.
Import llm_quality_control.

Definition requirements : string :=
"
    Educational content requirements:
    1. Scientifically accurate explanation of photosynthesis
    2. Include all key components (CO2, water, sunlight, chlorophyll)
    3. Explain the role of each component
    4. Mention both products (glucose and oxygen)
    5. Grade-appropriate language for 7th grade
    6. Clear learning outcomes
    ".

Section Main.
Context {World : Type}.

Variable pipeline_run :
  verdict.Pipeline -> Dict -> Z -> bool ->
  World -> Outcome (Dict * verdict.Diagnostics) * World.

Variable chat_completions_create :
  string -> list Message -> World -> Outcome (option string) * World.

(** Lines 171-197.  The value is what [main] prints once
    [improve_content] has returned, one string per [print] call; what is
    printed before that point, by [main] and by the loop, is not
    modelled. *)
Definition main : M World (list string) :=
  let qc := init "text" 5 in
  let* final_result :=
    improve_content pipeline_run chat_completions_create
      qc INITIAL_CONTENT requirements in
  let failed := [newline +:+ "Failed to achieve satisfactory content quality"] in
  match final_result with
  | None => ret failed
  | Some d =>
      if negb (truthy_opt_dict final_result) then ret failed else
      let* verdict := getitem d "verdict" in
      if String.eqb verdict "pass" then
        let* content := getitem d "content" in
        let* explanation := getitem d "explanation" in
        ret [newline +:+ "Final Improved Content:";
             str_mul "=" 30;
             content;
             newline +:+ "Final Quality Assessment:";
             explanation]
      else ret failed
  end.

End Main.

End llm_quality_control_main.

Module quality_control_evaluator_main.
Import quality_control_evaluator.

Definition content : string :=
"
    Subject: Chemistry
    Grade Level: 9th Grade
    Topic: Chemical Reactions
    
    Content: Chemical reactions occur when atoms rearrange to form new substances.
    The reaction can be shown using chemical equations where reactants → products.
    For example: Na + Cl → NaCl
    
    Learning Outcomes:
    1. Understand basic chemical reactions
    2. Learn to write chemical equations
    3. Identify reactants and products
    ".

Definition qc_assessment : string :=
"
    The content provides a clear introduction to chemical reactions.
    The explanation is grade-appropriate and includes a practical example.
    The learning outcomes align with the content.
    Recommended for use in 9th-grade chemistry.
    ".

Definition qc_decision : string := "pass".

Definition requirements : string :=
"
    Chemistry content requirements:
    1. Scientific accuracy in all concepts
    2. Proper chemical equation notation
    3. Balance in all equations
    4. Safety considerations
    5. Common misconception prevention
    6. Clear learning progression
    ".

Section Main.
Context {World : Type}.

Variable pipeline_run :
  verdict.Pipeline -> Dict -> Z -> bool ->
  World -> Outcome (Dict * verdict.Diagnostics) * World.

(** Lines 135-191.  The value is everything [main] prints, one string per
    [print] call, in order. *)
Definition main : M World (list string) :=
  let out := [newline +:+ "Evaluating Quality Control System...";
              str_mul "=" 50] in
  let evaluator := init in
  let* result :=
    evaluate_qc_system pipeline_run evaluator
      content qc_assessment qc_decision requirements in
  match result with
  | None => ret (out ++ ["Failed to evaluate QC system"])
  | Some d =>
      if bool_decide (d = ∅) then ret (out ++ ["Failed to evaluate QC system"])
      else
      let out := out ++ [newline +:+ "Meta-Evaluation Results:"; str_mul "=" 30] in
      let* meta := getitem_of d "meta_evaluation" in
      let* verdict := getitem meta "verdict" in
      let out := out ++ ["Verdict: " +:+ verdict] in
      let out := out ++ [newline +:+ "Detailed Analysis:"] in
      let* meta := getitem_of d "meta_evaluation" in
      let* explanation := getitem meta "explanation" in
      let out := out ++ [explanation] in
      let* meta := getitem_of d "meta_evaluation" in
      let* verdict := getitem meta "verdict" in
      if negb (String.eqb verdict "reliable") then
        let out := out ++ [newline +:+ "Failure Analysis:"; str_mul "=" 30] in
        let* failure := getitem_of d "failure_analysis" in
        let* failure_type := getitem failure "type" in
        let out := out ++ ["Failure Type: " +:+ failure_type] in
        let out := out ++ [newline +:+ "Failure Details:"] in
        let* failure := getitem_of d "failure_analysis" in
        let* failure_explanation := getitem failure "explanation" in
        ret (out ++ [failure_explanation])
      else ret out
  end.

End Main.

End quality_control_evaluator_main.

(** ** Further vocabulary *)

Module run_spec.
Import llm_quality_control loop_spec.

(** A call that gave the loop nothing to go on with: a pipeline run
    without a usable result, or a generation call without content. *)
Definition failed_call (ev : Event) : Prop :=
  match ev with
  | EvRun _ _ _ _ out => unusable out
  | EvCreate _ _ out => generation_failed out = true
  end.

(** The pipeline runs of a trace, in order. *)
Definition runs (t : list Event) : list Event := List.filter is_run t.

(** The content a pipeline run was given. *)
Definition submitted_content_of (ev : Event) : option string :=
  match ev with
  | EvRun _ input _ _ _ => input !! "content"
  | EvCreate _ _ _ => None
  end.





(** The dict [evaluate_qc_system] builds from a result map. *)
Definition audit_of (m : Dict) : gmap string Dict :=
  {[ "meta_evaluation" :=
       ({[ "verdict" :=
             dict_get m (quality_control_evaluator.base_path
                         +:+ "[0].unit[CategoricalJudge MetaJudge]_choice");
           "explanation" :=
             dict_get m (quality_control_evaluator.base_path
                         +:+ "[0].unit[CategoricalJudge MetaJudge]_explanation") ]}
        : Dict);
     "failure_analysis" :=
       ({[ "type" :=
             dict_get m (quality_control_evaluator.base_path
                         +:+ "[1].unit[CategoricalJudge FailureAnalyzer]_choice");
           "explanation" :=
             dict_get m (quality_control_evaluator.base_path
                         +:+ "[1].unit[CategoricalJudge FailureAnalyzer]_explanation") ]}
        : Dict) ]}.






End run_spec.

Module more_mocks.

(** A judge that answers [pass] whatever it is shown. *)
Definition judge_always_pass (p : verdict.Pipeline) (input : Dict)
    (max_workers : Z) (graceful : bool) (w : unit)
    : Outcome (Dict * verdict.Diagnostics) * unit :=
  (Returns (mocks.judged "pass" "Accurate and complete."), w).

(** A pipeline whose run comes back with an empty result map. *)
Definition judge_silent (p : verdict.Pipeline) (input : Dict)
    (max_workers : Z) (graceful : bool) (w : unit)
    : Outcome (Dict * verdict.Diagnostics) * unit :=
  (Returns (∅, []), w).


End more_mocks.

(** * Facts *)

Lemma truthy_str_true (s : string) : s ≠ "" → truthy_str s = true.
Proof.
  intros H. unfold truthy_str. apply negb_true_iff, String.eqb_neq, H.
Qed.

Lemma truthy_str_false (s : string) : truthy_str s = false → s = "".
Proof.
  unfold truthy_str. intros H. apply negb_false_iff in H. by apply String.eqb_eq.
Qed.

Lemma dict_get_some (d : Dict) k v : d !! k = Some v → dict_get d k = v.
Proof. unfold dict_get. by intros ->. Qed.


(** ** The content quality controller *)

Module QualityControlFacts.
Import llm_quality_control loop_spec.

Lemma assessment_verdict v e c : assessment v e c !! "verdict" = Some v.
Proof. unfold assessment. apply lookup_insert_eq. Qed.

Lemma assessment_explanation v e c : assessment v e c !! "explanation" = Some e.
Proof.
  unfold assessment. rewrite lookup_insert_ne by done. apply lookup_insert_eq.
Qed.

Lemma assessment_content v e c : assessment v e c !! "content" = Some c.
Proof.
  unfold assessment. rewrite !lookup_insert_ne by done. apply lookup_singleton_eq.
Qed.

Lemma assessment_truthy v e c : truthy_opt_dict (Some (assessment v e c)) = true.
Proof.
  unfold truthy_opt_dict, assessment. rewrite bool_decide_eq_false_2; [done|].
  apply insert_non_empty.
Qed.

Lemma submitted_content self content requirements :
  submitted self content requirements !! "content" = Some content.
Proof. unfold submitted, verdict.Schema_of. simpl. apply lookup_insert_eq. Qed.

Section Methods.
Context {World : Type}.

Variable pipeline_run :
  verdict.Pipeline -> Dict -> Z -> bool ->
  World -> Outcome (Dict * verdict.Diagnostics) * World.

Variable chat_completions_create :
  string -> list Message -> World -> Outcome (option string) * World.

(** *** [evaluate_content] and [generate_improved_content] *)

Lemma evaluate_content_unusable self content requirements w out w1 :
  pipeline_run (pipeline self) (submitted self content requirements) 1 true w
    = (out, w1) →
  unusable out →
  evaluate_content pipeline_run self content requirements w
    = (Ok None, w1,
       [EvRun (pipeline self) (submitted self content requirements) 1 true out]).
Proof.
  intros Hrun Hbad.
  unfold evaluate_content, try_except, bind, external.
  fold (submitted self content requirements).
  rewrite Hrun. destruct out as [[m diag]|e]; [|done].
  cbv beta iota.
  assert (negb (truthy_str (dict_get m (base_path +:+ "_choice")))
          || negb (truthy_str (dict_get m (base_path +:+ "_explanation")))
          = true) as ->; [|done].
  apply orb_true_iff.
  destruct Hbad as [H|[H|[H|H]]]; unfold dict_get; rewrite H; auto.
Qed.

Lemma evaluate_content_usable self content requirements w m diag w1 v e :
  pipeline_run (pipeline self) (submitted self content requirements) 1 true w
    = (Returns (m, diag), w1) →
  m !! (base_path +:+ "_choice") = Some v →
  m !! (base_path +:+ "_explanation") = Some e →
  v ≠ "" → e ≠ "" →
  evaluate_content pipeline_run self content requirements w
    = (Ok (Some (assessment v e content)), w1,
       [EvRun (pipeline self) (submitted self content requirements) 1 true
          (Returns (m, diag))]).
Proof.
  intros Hrun Hv He Hvne Hene.
  unfold evaluate_content, try_except, bind, external.
  fold (submitted self content requirements).
  rewrite Hrun. cbv beta iota.
  rewrite (dict_get_some _ _ _ Hv), (dict_get_some _ _ _ He).
  rewrite !truthy_str_true by done. done.
Qed.

(** Every run outcome is either unusable or carries a non-empty verdict
    and a non-empty explanation. *)
Lemma run_outcome_cases (out : Outcome (Dict * verdict.Diagnostics)) :
  unusable out ∨
  ∃ m diag v e, out = Returns (m, diag) ∧
    m !! (base_path +:+ "_choice") = Some v ∧
    m !! (base_path +:+ "_explanation") = Some e ∧ v ≠ "" ∧ e ≠ "".
Proof.
  destruct out as [[m diag]|exn]; [|by left].
  destruct (m !! (base_path +:+ "_choice")) as [v|] eqn:Hv; [|left; simpl; auto].
  destruct (m !! (base_path +:+ "_explanation")) as [e|] eqn:He;
    [|left; simpl; auto].
  destruct (decide (v = "")) as [->|Hvne]; [left; simpl; auto|].
  destruct (decide (e = "")) as [->|Hene]; [left; simpl; auto|].
  right. by exists m, diag, v, e.
Qed.

Lemma generate_improved_content_returns self original feedback w out w1 :
  chat_completions_create "gpt-4o-mini"
    (user_message (improvement_prompt original feedback)) w = (out, w1) →
  generate_improved_content chat_completions_create self original feedback w
    = (Ok (match out with Returns c => c | Raises _ => None end), w1,
       [EvCreate "gpt-4o-mini"
          (user_message (improvement_prompt original feedback)) out]).
Proof.
  intros Hgen.
  unfold generate_improved_content, try_except, bind, external.
  fold (user_message (improvement_prompt original feedback)).
  rewrite Hgen. by destruct out.
Qed.

(** *** One cycle *)

Lemma loop_body_unevaluated self requirements st w out w1 :
  pipeline_run (pipeline self)
    (submitted self (current_content st) requirements) 1 true w = (out, w1) →
  unusable out →
  loop_body pipeline_run chat_completions_create self requirements st w
    = (Ok (Return (evaluated st None) None), w1,
       [EvRun (pipeline self)
          (submitted self (current_content st) requirements) 1 true out]).
Proof.
  intros Hrun Hbad.
  unfold loop_body, bind. cbn [current_content iterations result].
  by rewrite (evaluate_content_unusable _ _ _ _ _ _ Hrun Hbad).
Qed.

(** A usable evaluation: what is left of the cycle after it. *)
Lemma loop_body_evaluated self requirements st w m diag w1 v e :
  pipeline_run (pipeline self)
    (submitted self (current_content st) requirements) 1 true w
    = (Returns (m, diag), w1) →
  m !! (base_path +:+ "_choice") = Some v →
  m !! (base_path +:+ "_explanation") = Some e →
  v ≠ "" → e ≠ "" →
  loop_body pipeline_run chat_completions_create self requirements st w
    = let r := Some (assessment v e (current_content st)) in
      let run := EvRun (pipeline self)
                   (submitted self (current_content st) requirements) 1 true
                   (Returns (m, diag)) in
      if String.eqb v "pass" then (Ok (Return (evaluated st r) r), w1, [run])
      else
        match generate_improved_content chat_completions_create self
                (current_content st) e w1 with
        | (Ok (Some c), w2, t) =>
            if truthy_str c
            then (Ok (Next (regenerated st r c)), w2, run :: t)
            else (Ok (Return (evaluated st r) None), w2, run :: t)
        | (Ok None, w2, t) => (Ok (Return (evaluated st r) None), w2, run :: t)
        | (Raise exn, w2, t) => (Raise exn, w2, run :: t)
        | (OutOfFuel, w2, t) => (OutOfFuel, w2, run :: t)
        end.
Proof.
  intros Hrun Hv He Hvne Hene.
  unfold loop_body, bind. cbn [current_content iterations result].
  rewrite (evaluate_content_usable _ _ _ _ _ _ _ _ _ Hrun Hv He Hvne Hene).
  cbv beta iota zeta. rewrite assessment_truthy. cbn [negb].
  unfold getitem. rewrite assessment_verdict, assessment_explanation.
  unfold ret at 1 2 3. cbv beta iota.
  destruct (String.eqb v "pass"); [done|].
  unfold ret at 1. cbv beta iota.
  destruct (generate_improved_content _ _ _ _ _) as [[[[c|]| |] w2] t];
    try done.
  - unfold truthy_opt_str.
    destruct (truthy_str c); unfold ret; cbn [negb app];
      by rewrite app_nil_r.
  - unfold ret; cbn [negb app]. by rewrite app_nil_r.
Qed.

Lemma loop_body_passes self requirements st w m diag w1 e :
  pipeline_run (pipeline self)
    (submitted self (current_content st) requirements) 1 true w
    = (Returns (m, diag), w1) →
  m !! (base_path +:+ "_choice") = Some "pass" →
  m !! (base_path +:+ "_explanation") = Some e →
  e ≠ "" →
  loop_body pipeline_run chat_completions_create self requirements st w
    = (Ok (Return (evaluated st (Some (assessment "pass" e (current_content st))))
                  (Some (assessment "pass" e (current_content st)))), w1,
       [EvRun (pipeline self)
          (submitted self (current_content st) requirements) 1 true
          (Returns (m, diag))]).
Proof.
  intros Hrun Hv He Hene.
  by rewrite (loop_body_evaluated _ _ _ _ _ _ _ _ _ Hrun Hv He).
Qed.

Lemma loop_body_aborts self requirements st w m diag w1 v e out w2 :
  pipeline_run (pipeline self)
    (submitted self (current_content st) requirements) 1 true w
    = (Returns (m, diag), w1) →
  m !! (base_path +:+ "_choice") = Some v →
  m !! (base_path +:+ "_explanation") = Some e →
  v ≠ "" → v ≠ "pass" → e ≠ "" →
  chat_completions_create "gpt-4o-mini"
    (user_message (improvement_prompt (current_content st) e)) w1 = (out, w2) →
  generation_failed out = true →
  loop_body pipeline_run chat_completions_create self requirements st w
    = (Ok (Return (evaluated st (Some (assessment v e (current_content st)))) None),
       w2,
       [EvRun (pipeline self)
          (submitted self (current_content st) requirements) 1 true
          (Returns (m, diag));
        EvCreate "gpt-4o-mini"
          (user_message (improvement_prompt (current_content st) e)) out]).
Proof.
  intros Hrun Hv He Hvne Hpass Hene Hgen Hfail.
  rewrite (loop_body_evaluated _ _ _ _ _ _ _ _ _ Hrun Hv He Hvne Hene).
  cbv zeta. rewrite (proj2 (String.eqb_neq _ _) Hpass).
  rewrite (generate_improved_content_returns self _ _ _ _ _ Hgen).
  destruct out as [[c|]|exn]; try done.
  simpl in Hfail. apply negb_true_iff in Hfail. by rewrite Hfail.
Qed.

Lemma loop_body_regenerates self requirements st w m diag w1 v e c w2 :
  pipeline_run (pipeline self)
    (submitted self (current_content st) requirements) 1 true w
    = (Returns (m, diag), w1) →
  m !! (base_path +:+ "_choice") = Some v →
  m !! (base_path +:+ "_explanation") = Some e →
  v ≠ "" → v ≠ "pass" → e ≠ "" →
  chat_completions_create "gpt-4o-mini"
    (user_message (improvement_prompt (current_content st) e)) w1
    = (Returns (Some c), w2) →
  c ≠ "" →
  loop_body pipeline_run chat_completions_create self requirements st w
    = (Ok (Next (regenerated st (Some (assessment v e (current_content st))) c)),
       w2,
       [EvRun (pipeline self)
          (submitted self (current_content st) requirements) 1 true
          (Returns (m, diag));
        EvCreate "gpt-4o-mini"
          (user_message (improvement_prompt (current_content st) e))
          (Returns (Some c))]).
Proof.
  intros Hrun Hv He Hvne Hpass Hene Hgen Hc.
  rewrite (loop_body_evaluated _ _ _ _ _ _ _ _ _ Hrun Hv He Hvne Hene).
  cbv zeta. rewrite (proj2 (String.eqb_neq _ _) Hpass).
  rewrite (generate_improved_content_returns self _ _ _ _ _ Hgen).
  by rewrite (truthy_str_true _ Hc).
Qed.

Lemma loop_body_ends self requirements st w :
  cycle_ends pipeline_run chat_completions_create self requirements st w
    (loop_body pipeline_run chat_completions_create self requirements st w).
Proof.
  destruct (pipeline_run (pipeline self)
              (submitted self (current_content st) requirements) 1 true w)
    as [out w1] eqn:Hrun.
  destruct (run_outcome_cases out)
    as [Hbad|(m & diag & v & e & -> & Hv & He & Hvne & Hene)].
  - rewrite (loop_body_unevaluated _ _ _ _ _ _ Hrun Hbad).
    by eapply ends_unevaluated.
  - destruct (decide (v = "pass")) as [->|Hpass].
    + rewrite (loop_body_passes _ _ _ _ _ _ _ _ Hrun Hv He Hene).
      by eapply ends_passed.
    + destruct (chat_completions_create "gpt-4o-mini"
                  (user_message (improvement_prompt (current_content st) e)) w1)
        as [out w2] eqn:Hgen.
      destruct (generation_failed out) eqn:Hfail.
      * rewrite (loop_body_aborts _ _ _ _ _ _ _ _ _ _ _
                   Hrun Hv He Hvne Hpass Hene Hgen Hfail).
        by eapply ends_aborted.
      * destruct out as [[c|]|exn]; try discriminate.
        assert (c ≠ "") as Hc.
        { intros ->. discriminate Hfail. }
        rewrite (loop_body_regenerates _ _ _ _ _ _ _ _ _ _ _
                   Hrun Hv He Hvne Hpass Hene Hgen Hc).
        by eapply ends_regenerated.
Qed.

(** *** The loop *)

Lemma while_loop_exit fuel self requirements st w :
  max_iterations self ≤ iterations st →
  while_loop pipeline_run chat_completions_create fuel self requirements st w
    = after_loop st w.
Proof.
  intros Hge. destruct fuel; simpl;
    by rewrite (proj2 (Z.ltb_ge _ _) Hge).
Qed.

Lemma while_loop_enter fuel self requirements st w :
  iterations st < max_iterations self →
  while_loop pipeline_run chat_completions_create (S fuel) self requirements st w
    = bind (loop_body pipeline_run chat_completions_create self requirements st)
           (fun flow =>
              match flow with
              | Return _ v => ret v
              | Next st' =>
                  while_loop pipeline_run chat_completions_create fuel self
                             requirements st'
              end) w.
Proof.
  intros Hlt. simpl. by rewrite (proj2 (Z.ltb_lt _ _) Hlt).
Qed.

(** With the fuel [improve_content] passes, the loop returns or raises:
    it is never cut off. *)
Lemma while_loop_returns fuel self requirements st w :
  (Z.to_nat (max_iterations self - iterations st) ≤ fuel)%nat →
  iterations st < max_iterations self ∨ (∃ v, result st = Bound v) →
  ∃ v w' t,
    while_loop pipeline_run chat_completions_create fuel self requirements st w
      = (Ok v, w', t).
Proof.
  revert st w. induction fuel as [|fuel IH]; intros st w Hfuel Hbound.
  - rewrite while_loop_exit by lia.
    destruct Hbound as [Hlt|[v Hv]]; [lia|].
    unfold after_loop. rewrite Hv. by eexists _, _, _.
  - destruct (Z_lt_le_dec (iterations st) (max_iterations self)) as [Hlt|Hge].
    + rewrite while_loop_enter by done. unfold bind.
      destruct (loop_body_ends self requirements st w);
        try (by eexists _, _, _).
      edestruct (IH (regenerated st (Some (assessment v e (current_content st))) c) w2)
        as (v' & w' & t & ->).
      * simpl. lia.
      * right. by eexists.
      * by eexists _, _, _.
    + rewrite while_loop_exit by lia.
      destruct Hbound as [?|[v Hv]]; [lia|].
      unfold after_loop. rewrite Hv. by eexists _, _, _.
Qed.

Lemma visits_invariant self content requirements w0 st w t :
  0 ≤ max_iterations self →
  visits pipeline_run chat_completions_create self content requirements w0 st w t →
  0 ≤ iterations st ≤ max_iterations self ∧
  iterations st = Z.of_nat (evaluations t).
Proof.
  intros Hmax Hvis. induction Hvis as [|st w t st' w' t' Hvis IH Hlt Hbody].
  - simpl. split; [lia|]. done.
  - destruct IH as (Hrange & Hcount).
    pose proof (loop_body_ends self requirements st w) as Hends.
    rewrite Hbody in Hends. inversion Hends; subst.
    unfold evaluations in *. rewrite List.filter_app, length_app. simpl.
    split; lia.
Qed.

(** *** What a run of [improve_content] looks like *)

Lemma after_loop_silent (st : Locals) (w : World) :
  (after_loop st w).2 = [].
Proof. unfold after_loop. by destruct (result st). Qed.

Lemma while_loop_aborts fuel self requirements st w model messages out :
  EvCreate model messages out
    ∈ (while_loop pipeline_run chat_completions_create fuel self requirements st w).2 →
  generation_failed out = true →
  (while_loop pipeline_run chat_completions_create fuel self requirements st w).1.1
    = Ok None ∧
  last (while_loop pipeline_run chat_completions_create fuel self requirements st w).2
    = Some (EvCreate model messages out).
Proof.
  revert st w. induction fuel as [|fuel IH]; intros st w Hin Hfail.
  - exfalso. revert Hin. simpl.
    destruct (iterations st <? max_iterations self);
      [|rewrite after_loop_silent]; by intros ?%elem_of_nil.
  - destruct (Z_lt_le_dec (iterations st) (max_iterations self)) as [Hlt|Hge].
    + revert Hin. rewrite while_loop_enter by done. unfold bind.
      destruct (loop_body_ends self requirements st w)
        as [out1 w1 Hrun Hbad
           |m diag e w1 Hrun Hv He Hene
           |m diag v e w1 out1 w2 Hrun Hv He Hvne Hpass Hene Hgen Hfail1
           |m diag v e w1 c w2 Hrun Hv He Hvne Hpass Hene Hgen Hc].
      * simpl. intros [?|?%elem_of_nil]%elem_of_cons; [discriminate|done].
      * simpl. intros [?|?%elem_of_nil]%elem_of_cons; [discriminate|done].
      * simpl.
        intros [?|[Heq|?%elem_of_nil]%elem_of_cons]%elem_of_cons;
          [discriminate| |done].
        by rewrite Heq.
      * specialize (IH (regenerated st (Some (assessment v e (current_content st))) c) w2).
        destruct (while_loop _ _ fuel self requirements _ w2) as [[r w'] t].
        cbn [fst snd] in *.
        intros [?|[Heq|Hin]%elem_of_cons]%elem_of_cons; [discriminate| |].
        -- injection Heq as -> -> ->. simpl in Hfail.
           by rewrite (truthy_str_true _ Hc) in Hfail.
        -- destruct (IH Hin Hfail) as [-> Hlast]. split; [done|].
           cbn [app]. by rewrite !last_cons, Hlast.
    + exfalso. revert Hin. rewrite while_loop_exit by lia.
      rewrite after_loop_silent. by intros ?%elem_of_nil.
Qed.

Lemma while_loop_alternates fuel self requirements st w :
  alternating (current_content st)
    (while_loop pipeline_run chat_completions_create fuel self requirements st w).2.
Proof.
  revert st w. induction fuel as [|fuel IH]; intros st w.
  - simpl. destruct (iterations st <? max_iterations self);
      [done|by rewrite after_loop_silent].
  - destruct (Z_lt_le_dec (iterations st) (max_iterations self)) as [Hlt|Hge].
    + rewrite while_loop_enter by done. unfold bind.
      destruct (loop_body_ends self requirements st w)
        as [out1 w1 Hrun Hbad
           |m diag e w1 Hrun Hv He Hene
           |m diag v e w1 out1 w2 Hrun Hv He Hvne Hpass Hene Hgen Hfail1
           |m diag v e w1 c w2 Hrun Hv He Hvne Hpass Hene Hgen Hc].
      * simpl. by rewrite submitted_content.
      * simpl. by rewrite submitted_content.
      * simpl. rewrite submitted_content. split; [done|]. split; [|done].
        by exists e.
      * specialize (IH (regenerated st (Some (assessment v e (current_content st))) c) w2).
        destruct (while_loop _ _ fuel self requirements _ w2) as [[r w'] t].
        cbn [fst snd app alternating] in *.
        split; [apply submitted_content|]. split; [by exists e|].
        destruct t; [done|]. by exists c.
    + rewrite while_loop_exit by lia. by rewrite after_loop_silent.
Qed.

(** In an alternating trace a run is never followed by a run. *)
Lemma alternating_run_then_create (t : list Event) :
  ∀ cur i e1 e2,
    alternating cur t →
    t !! i = Some e1 → t !! S i = Some e2 →
    is_run e1 = true → is_create e2 = true.
Proof.
  induction t as [t IH] using (induction_ltof1 _ length).
  unfold ltof in IH.
  intros cur i e1 e2 Halt H1 H2 Hr.
  destruct t as [|[p input mw g out|model messages out] rest]; [done| |done].
  destruct Halt as [_ Halt].
  destruct rest as [|[p' input' mw' g' out'|model messages out'] rest'];
    [by destruct i|done|].
  destruct i as [|[|i]].
  - by injection H2 as <-.
  - injection H1 as <-. discriminate Hr.
  - destruct Halt as [_ Halt]. destruct rest' as [|e' rest'']; [done|].
    destruct Halt as (c & _ & _ & Halt).
    eapply (IH (e' :: rest'')); [simpl; lia|exact Halt|exact H1|exact H2|exact Hr].
Qed.

Lemma visits_run self content requirements w0 st w t :
  visits pipeline_run chat_completions_create self content requirements w0 st w t →
  improve_content pipeline_run chat_completions_create self content requirements w0
    = match while_loop pipeline_run chat_completions_create
              (Z.to_nat (max_iterations self - iterations st))
              self requirements st w with
      | (r, w', t') => (r, w', t ++ t')
      end.
Proof.
  intros Hvis. induction Hvis as [|st w t st' w' t' Hvis IH Hlt Hbody].
  - unfold improve_content. simpl. rewrite Z.sub_0_r.
    by destruct (while_loop _ _ _ _ _ _ _) as [[r w'] t'].
  - rewrite IH.
    replace (Z.to_nat (max_iterations self - iterations st))
      with (S (Z.to_nat (max_iterations self - iterations st'))).
    + rewrite while_loop_enter by done. unfold bind. rewrite Hbody.
      destruct (while_loop _ _ _ self requirements st' w') as [[r w''] t''].
      by rewrite app_assoc.
    + pose proof (loop_body_ends self requirements st w) as Hends.
      rewrite Hbody in Hends. inversion Hends; subst. simpl. lia.
Qed.

Lemma while_loop_exhausts self requirements :
  judge_always pipeline_run "revise" →
  improvement_always_succeeds chat_completions_create →
  ∀ fuel st w,
    Z.to_nat (max_iterations self - iterations st) = fuel →
    iterations st < max_iterations self ∨
      (∃ d, result st = Bound (Some d) ∧ d !! "verdict" = Some "revise") →
    ∃ d w' t,
      while_loop pipeline_run chat_completions_create fuel self requirements st w
        = (Ok (Some d), w', t) ∧
      evaluations t = fuel ∧ regenerations t = fuel ∧
      d !! "verdict" = Some "revise" ∧
      (∀ ev, last t = Some ev → is_create ev = true).
Proof.
  intros Hjudge Himprove.
  induction fuel as [|fuel IH]; intros st w Hfuel Hbound.
  - rewrite while_loop_exit by lia.
    destruct Hbound as [Hlt|(d & Hd & Hverdict)]; [lia|].
    unfold after_loop. rewrite Hd. by exists d, w, [].
  - assert (iterations st < max_iterations self) as Hlt by lia.
    destruct (Hjudge (pipeline self)
                (submitted self (current_content st) requirements) 1 true w)
      as (m & diag & e & w1 & Hrun & Hv & He & Hene).
    destruct (Himprove "gpt-4o-mini"
                (user_message (improvement_prompt (current_content st) e)) w1)
      as (c & w2 & Hgen & Hc).
    rewrite while_loop_enter by done. unfold bind.
    rewrite (loop_body_regenerates _ _ _ _ _ _ _ _ _ _ _
               Hrun Hv He ltac:(done) ltac:(done) Hene Hgen Hc).
    destruct (IH (regenerated st (Some (assessment "revise" e (current_content st))) c) w2)
      as (d & w' & t & -> & Hevals & Hregens & Hverdict & Hlast).
    + simpl. lia.
    + right. eexists. split; [done|]. apply assessment_verdict.
    + exists d, w', (EvRun (pipeline self)
                      (submitted self (current_content st) requirements) 1 true
                      (Returns (m, diag))
                    :: EvCreate "gpt-4o-mini"
                         (user_message (improvement_prompt (current_content st) e))
                         (Returns (Some c)) :: t).
      split; [done|]. unfold evaluations, regenerations in *. simpl.
      repeat split; [lia|lia|done|].
      intros ev. rewrite !last_cons.
      destruct (last t) as [ev'|] eqn:Ht.
      * intros [= <-]. by apply Hlast.
      * by intros [= <-].
Qed.

(** ** The claims about the controller *)

(** C10.  When [max_iterations <= 0] the loop body never runs, [result]
    is unbound at the final [return] and the call raises
    [UnboundLocalError] without having called anything; when
    [max_iterations >= 1] the call returns a value, a result or [None]. *)
Theorem improve_content_unbound_result self content requirements w :
  (max_iterations self ≤ 0 ∧
   improve_content pipeline_run chat_completions_create self content requirements w
     = (Raise (UnboundLocalError "result"), w, []))
  ∨
  (1 ≤ max_iterations self ∧
   ∃ v w' t,
     improve_content pipeline_run chat_completions_create self content requirements w
       = (Ok v, w', t)).
Proof.
  destruct (Z_le_gt_dec (max_iterations self) 0) as [Hle|Hgt].
  - left. split; [done|]. unfold improve_content.
    by rewrite while_loop_exit.
  - right. split; [lia|]. unfold improve_content.
    apply while_loop_returns; simpl; [lia|left; lia].
Qed.

(** C6.  [evaluate_content] returns [None] when the pipeline run raises
    or when the verdict or the explanation is absent or empty; a result
    that is not [None] is the complete dict, with a non-empty verdict
    and a non-empty explanation.  It never raises. *)
Theorem evaluate_content_null_or_complete self content requirements w :
  (unusable (pipeline_run (pipeline self)
               (submitted self content requirements) 1 true w).1 →
   (evaluate_content pipeline_run self content requirements w).1.1 = Ok None)
  ∧
  (∃ r, (evaluate_content pipeline_run self content requirements w).1.1 = Ok r)
  ∧
  (∀ d,
     (evaluate_content pipeline_run self content requirements w).1.1 = Ok (Some d) →
     ∃ v e,
       v ≠ "" ∧ e ≠ "" ∧
       d = assessment v e content ∧
       d !! "verdict" = Some v ∧ d !! "explanation" = Some e ∧
       d !! "content" = Some content).
Proof.
  destruct (pipeline_run (pipeline self) (submitted self content requirements)
              1 true w) as [out w1] eqn:Hrun.
  cbn [fst].
  destruct (run_outcome_cases out)
    as [Hbad|(m & diag & v & e & -> & Hv & He & Hvne & Hene)].
  - rewrite (evaluate_content_unusable _ _ _ _ _ _ Hrun Hbad). cbn [fst].
    split; [done|]. split; [by eexists|]. by intros d [=].
  - rewrite (evaluate_content_usable _ _ _ _ _ _ _ _ _ Hrun Hv He Hvne Hene).
    cbn [fst]. split; [|split; [by eexists|]].
    + intros [H|[H|[H|H]]]; congruence.
    + intros d [= <-]. exists v, e.
      by rewrite assessment_verdict, assessment_explanation, assessment_content.
Qed.

(** C5.  Whenever a generation call of a run fails to produce content
    (it raised, or gave [None] or the empty string, so that
    [generate_improved_content] returned nothing usable),
    [improve_content] returns [None], and that call is the last thing
    the run did. *)
Theorem improve_content_aborts self content requirements w model messages out :
  EvCreate model messages out
    ∈ (improve_content pipeline_run chat_completions_create
         self content requirements w).2 →
  generation_failed out = true →
  (improve_content pipeline_run chat_completions_create
     self content requirements w).1.1 = Ok None ∧
  last (improve_content pipeline_run chat_completions_create
          self content requirements w).2 = Some (EvCreate model messages out).
Proof. apply while_loop_aborts. Qed.

(** C7.  The trace of a run alternates: every evaluation submits the
    current content; an evaluation is followed, if by anything, by a
    generation call for that content, and a further evaluation only
    comes after that call succeeded and submits what it produced.  In
    particular an evaluation is never directly followed by another. *)
Theorem improve_content_alternates self content requirements w :
  alternating content
    (improve_content pipeline_run chat_completions_create
       self content requirements w).2 ∧
  (∀ i e1 e2,
     (improve_content pipeline_run chat_completions_create
        self content requirements w).2 !! i = Some e1 →
     (improve_content pipeline_run chat_completions_create
        self content requirements w).2 !! S i = Some e2 →
     is_run e1 = true → is_create e2 = true).
Proof.
  assert (alternating content
            (improve_content pipeline_run chat_completions_create
               self content requirements w).2) as Halt.
  { apply (while_loop_alternates _ self requirements (initial_locals content)). }
  split; [done|]. intros i e1 e2.
  exact (alternating_run_then_create _ content i e1 e2 Halt).
Qed.

(** C8.  With [max_iterations >= 1] the counter starts at 0; at every
    loop head the run passes through it lies between 0 and
    [max_iterations] and equals the number of evaluations made so far;
    a cycle entered there leaves it exactly one higher, still within
    [max_iterations]; and the run is the loop continued from that
    head. *)
Theorem iterations_bounded self content requirements w0 st w t :
  1 ≤ max_iterations self →
  visits pipeline_run chat_completions_create self content requirements w0 st w t →
  iterations (initial_locals content) = 0 ∧
  0 ≤ iterations st ≤ max_iterations self ∧
  iterations st = Z.of_nat (evaluations t) ∧
  (iterations st < max_iterations self →
   ∀ flow w' t',
     loop_body pipeline_run chat_completions_create self requirements st w
       = (Ok flow, w', t') →
     iterations (locals_of flow) = iterations st + 1 ∧
     iterations (locals_of flow) ≤ max_iterations self) ∧
  improve_content pipeline_run chat_completions_create self content requirements w0
    = match while_loop pipeline_run chat_completions_create
              (Z.to_nat (max_iterations self - iterations st))
              self requirements st w with
      | (r, w', t') => (r, w', t ++ t')
      end.
Proof.
  intros Hmax Hvis.
  assert (0 ≤ max_iterations self) as Hnonneg by lia.
  destruct (visits_invariant _ _ _ _ _ _ _ Hnonneg Hvis) as [Hrange Hcount].
  split; [done|]. split; [done|]. split; [done|]. split.
  - intros Hlt flow w' t' Hbody.
    pose proof (loop_body_ends self requirements st w) as Hends.
    rewrite Hbody in Hends. inversion Hends; subst; simpl; lia.
  - by apply visits_run.
Qed.



End Methods.

(** *** The stand-ins meet the assumptions *)

Lemma judge_always_revise_spec :
  judge_always mocks.judge_always_revise "revise".
Proof.
  intros p input max_workers graceful w.
  eexists _, _, _, _. split; [reflexivity|].
  split; [by vm_compute|]. split; [by vm_compute|done].
Qed.

Lemma generator_ok_spec (World : Type) :
  improvement_always_succeeds (@mocks.generator_ok World).
Proof.
  intros model messages w. eexists _, _. split; [reflexivity|done].
Qed.




Lemma improve_content_aborts_witness :
  (improve_content mocks.judge_always_revise mocks.generator_down
     init_default INITIAL_CONTENT "Mention chlorophyll." tt).1.1 = Ok None ∧
  last (improve_content mocks.judge_always_revise mocks.generator_down
          init_default INITIAL_CONTENT "Mention chlorophyll." tt).2
    = Some (EvCreate "gpt-4o-mini"
              (user_message
                 (improvement_prompt INITIAL_CONTENT
                    "The role of chlorophyll is missing."))
              (Raises (Exception "service unavailable"))).
Proof.
  apply improve_content_aborts.
  - vm_compute. apply elem_of_cons. right. apply elem_of_cons. by left.
  - reflexivity.
Defined.

Lemma evaluate_content_null_or_complete_witness :
  (evaluate_content mocks.judge_unreachable init_default
     INITIAL_CONTENT "Mention chlorophyll." tt).1.1 = Ok None.
Proof.
  apply (evaluate_content_null_or_complete mocks.judge_unreachable init_default
           INITIAL_CONTENT "Mention chlorophyll." tt).
  exact I.
Defined.

Lemma iterations_bounded_witness :
  0 ≤ iterations mocks.second_head ≤ 3 ∧ iterations mocks.second_head = 1.
Proof.
  pose proof (iterations_bounded mocks.judge_always_revise mocks.generator_ok
                init_default INITIAL_CONTENT "Mention chlorophyll." tt
                mocks.second_head tt
                ([] ++ (loop_body mocks.judge_always_revise mocks.generator_ok
                          init_default "Mention chlorophyll."
                          (initial_locals INITIAL_CONTENT) tt).2)) as H.
  destruct H as (_ & Hrange & Hcount & _).
  - simpl. lia.
  - eapply visits_next.
    + apply visits_start.
    + simpl. lia.
    + by vm_compute.
  - split; [exact Hrange|]. rewrite Hcount. by vm_compute.
Defined.

End QualityControlFacts.

(** ** The executor and the result keys *)

Module ExecutorFacts.
Import verdict executor pipeline_spec.

Section Run.
Context {World : Type}.

Variable evaluate :
  JudgeUnit -> Context -> World -> Outcome (string * string) * World.

(** *** A deterministic judge gives a deterministic run *)

Lemma run_units_deterministic graceful pipeline stage position ctx units :
  deterministic_judge evaluate →
  ∀ acc w1 w2,
    (run_units evaluate graceful pipeline stage position ctx units acc w1).1
    = (run_units evaluate graceful pipeline stage position ctx units acc w2).1.
Proof.
  intros Hdet. induction units as [|u rest IH]; intros acc w1 w2; [done|].
  simpl. specialize (Hdet u ctx w1 w2).
  destruct (evaluate u ctx w1) as [o1 w1'], (evaluate u ctx w2) as [o2 w2'].
  simpl in Hdet. subst o2.
  destruct o1 as [[label expl]|exn]; [apply IH|].
  destruct graceful; [apply IH|done].
Qed.

Lemma run_stages_deterministic graceful pipeline input todo :
  deterministic_judge evaluate →
  ∀ position acc w1 w2,
    (run_stages evaluate graceful pipeline input position todo acc w1).1
    = (run_stages evaluate graceful pipeline input position todo acc w2).1.
Proof.
  intros Hdet. induction todo as [|stage rest IH]; intros position acc w1 w2;
    [done|].
  simpl.
  pose proof (run_units_deterministic graceful pipeline stage position
                {| source := input; previous := explanations acc |}
                (units_of stage) Hdet
                {| values := values acc; diagnostics := diagnostics acc;
                   explanations := [] |} w1 w2) as Hunits.
  destruct (run_units _ _ _ _ _ _ _ _ w1) as [o1 w1'].
  destruct (run_units _ _ _ _ _ _ _ _ w2) as [o2 w2'].
  simpl in Hunits. subst o2.
  destruct o1 as [acc'|exn]; [apply IH|done].
Qed.

Lemma run_deterministic p input max_workers graceful w1 w2 :
  deterministic_judge evaluate →
  (run evaluate p input max_workers graceful w1).1
  = (run evaluate p input max_workers graceful w2).1.
Proof.
  intros Hdet. unfold run.
  pose proof (run_stages_deterministic graceful (pipeline_name p) input
                (stages p) Hdet 0%nat no_progress w1 w2) as Hstages.
  destruct (run_stages _ _ _ _ _ _ _ w1) as [o1 w1'].
  destruct (run_stages _ _ _ _ _ _ _ w2) as [o2 w2'].
  simpl in Hstages. subst o2. by destruct o1.
Qed.

(** *** Every key of a result map comes from the addressing scheme *)





(** *** The runs of the three pipelines of the scripts *)



Lemma run_evaluation_pipeline input max_workers w o1 w1 o2 w2 :
  evaluate quality_control_evaluator.meta_judge
    {| source := input; previous := [] |} w = (o1, w1) →
  evaluate quality_control_evaluator.failure_analyzer
    {| source := input; previous := handed_on o1 |} w1 = (o2, w2) →
  run evaluate quality_control_evaluator.create_evaluation_pipeline
      input max_workers true w
    = (Returns
         (collected o1 o2,
          [("QCEvaluator_root.block.layer[0].unit[CategoricalJudge MetaJudge]",
            succeeded o1);
           ("QCEvaluator_root.block.layer[1].unit[CategoricalJudge FailureAnalyzer]",
            succeeded o2)]), w2).
Proof.
  intros H1 H2. unfold run. simpl. rewrite H1.
  destruct o1 as [[l1 e1]|exn1]; simpl in *; rewrite H2;
    by destruct o2 as [[l2 e2]|exn2].
Qed.

End Run.

End ExecutorFacts.

(** ** The claims about the pipelines *)

Module PipelineClaims.
Import verdict executor pipeline_spec.

(** The outcome of [evaluate_content] only depends on the outcome of the
    pipeline run. *)
Lemma evaluate_content_same_outcome {World : Type}
    (pipeline_run : Pipeline -> Dict -> Z -> bool ->
                    World -> Outcome (Dict * Diagnostics) * World)
    self content requirements w1 w2 :
  (pipeline_run (llm_quality_control.pipeline self)
     (loop_spec.submitted self content requirements) 1 true w1).1
  = (pipeline_run (llm_quality_control.pipeline self)
       (loop_spec.submitted self content requirements) 1 true w2).1 →
  (llm_quality_control.evaluate_content pipeline_run self content requirements w1).1.1
  = (llm_quality_control.evaluate_content pipeline_run self content requirements w2).1.1
  ∧
  (llm_quality_control.evaluate_content pipeline_run self content requirements w1).2
  = (llm_quality_control.evaluate_content pipeline_run self content requirements w2).2.
Proof.
  destruct (pipeline_run _ _ 1 true w1) as [o1 w1'] eqn:H1.
  destruct (pipeline_run _ _ 1 true w2) as [o2 w2'] eqn:H2.
  simpl. intros <-.
  destruct (QualityControlFacts.run_outcome_cases o1)
    as [Hbad|(m & diag & v & e & -> & Hv & He & Hvne & Hene)].
  - rewrite (QualityControlFacts.evaluate_content_unusable _ _ _ _ _ _ _ H1 Hbad).
    by rewrite (QualityControlFacts.evaluate_content_unusable _ _ _ _ _ _ _ H2 Hbad).
  - rewrite (QualityControlFacts.evaluate_content_usable
               _ _ _ _ _ _ _ _ _ _ H1 Hv He Hvne Hene).
    by rewrite (QualityControlFacts.evaluate_content_usable
                  _ _ _ _ _ _ _ _ _ _ H2 Hv He Hvne Hene).
Qed.

(** C9.  With a deterministic judge, two invocations of
    [evaluate_content] on the same content and requirements, in whatever
    states of the world, get the same result map and diagnostics from the
    pipeline and return the same dict, having made the same call. *)
Theorem evaluate_content_idempotent {World : Type}
    (evaluate : JudgeUnit -> Context -> World -> Outcome (string * string) * World)
    self content requirements w1 w2 :
  deterministic_judge evaluate →
  (run evaluate (llm_quality_control.pipeline self)
     (loop_spec.submitted self content requirements) 1 true w1).1
  = (run evaluate (llm_quality_control.pipeline self)
       (loop_spec.submitted self content requirements) 1 true w2).1
  ∧
  (llm_quality_control.evaluate_content (run evaluate)
     self content requirements w1).1.1
  = (llm_quality_control.evaluate_content (run evaluate)
       self content requirements w2).1.1
  ∧
  (llm_quality_control.evaluate_content (run evaluate)
     self content requirements w1).2
  = (llm_quality_control.evaluate_content (run evaluate)
       self content requirements w2).2.
Proof.
  intros Hdet.
  assert ((run evaluate (llm_quality_control.pipeline self)
             (loop_spec.submitted self content requirements) 1 true w1).1
          = (run evaluate (llm_quality_control.pipeline self)
               (loop_spec.submitted self content requirements) 1 true w2).1)
    as Hrun by by apply ExecutorFacts.run_deterministic.
  split; [done|]. by apply evaluate_content_same_outcome.
Qed.

Lemma unit_counting_deterministic : deterministic_judge mocks.unit_counting.
Proof. by intros u ctx w1 w2. Qed.

Lemma evaluate_content_idempotent_witness :
  (llm_quality_control.evaluate_content (run mocks.unit_counting)
     llm_quality_control.init_default
     llm_quality_control.INITIAL_CONTENT "Mention chlorophyll." 0%nat).1.1
  = (llm_quality_control.evaluate_content (run mocks.unit_counting)
       llm_quality_control.init_default
       llm_quality_control.INITIAL_CONTENT "Mention chlorophyll." 7%nat).1.1.
Proof.
  apply (evaluate_content_idempotent mocks.unit_counting
           llm_quality_control.init_default
           llm_quality_control.INITIAL_CONTENT "Mention chlorophyll." 0%nat 7%nat).
  apply unit_counting_deterministic.
Defined.

(** C2.  Whatever the meta judge answers, and also when it fails, the
    run of the meta-evaluation pipeline goes on to evaluate the failure
    analyzer, in the world the meta judge left and with the explanation
    it handed on; the analyzer's path is in the diagnostics, its choice
    and explanation are in the result map when it answered, and the
    mapping [evaluate_qc_system] returns has the [failure_analysis] entry
    with its [type] and [explanation], read from those keys. *)
Theorem failure_analysis_always_present {World : Type}
    (evaluate : JudgeUnit -> Context -> World -> Outcome (string * string) * World)
    content qc_assessment qc_decision requirements w o1 w1 o2 w2 :
  evaluate quality_control_evaluator.meta_judge
    {| source := audited content qc_assessment qc_decision requirements;
       previous := [] |} w = (o1, w1) →
  evaluate quality_control_evaluator.failure_analyzer
    {| source := audited content qc_assessment qc_decision requirements;
       previous := handed_on o1 |} w1 = (o2, w2) →
  ∃ m diag d fa,
    run evaluate quality_control_evaluator.create_evaluation_pipeline
        (audited content qc_assessment qc_decision requirements) 1 true w
      = (Returns (m, diag), w2) ∧
    ("QCEvaluator_root.block.layer[1].unit[CategoricalJudge FailureAnalyzer]",
     succeeded o2) ∈ diag ∧
    (∀ label expl,
       o2 = Returns (label, expl) →
       m !! (quality_control_evaluator.base_path
             +:+ "[1].unit[CategoricalJudge FailureAnalyzer]_choice") = Some label ∧
       m !! (quality_control_evaluator.base_path
             +:+ "[1].unit[CategoricalJudge FailureAnalyzer]_explanation")
         = Some expl) ∧
    quality_control_evaluator.evaluate_qc_system (run evaluate)
        quality_control_evaluator.init
        content qc_assessment qc_decision requirements w
      = (Ok (Some d), w2,
         [EvRun quality_control_evaluator.create_evaluation_pipeline
            (audited content qc_assessment qc_decision requirements) 1 true
            (Returns (m, diag))]) ∧
    d !! "failure_analysis" = Some fa ∧
    fa !! "type"
      = Some (dict_get m (quality_control_evaluator.base_path
                          +:+ "[1].unit[CategoricalJudge FailureAnalyzer]_choice")) ∧
    fa !! "explanation"
      = Some (dict_get m (quality_control_evaluator.base_path
                          +:+ "[1].unit[CategoricalJudge FailureAnalyzer]_explanation")).
Proof.
  intros H1 H2.
  pose proof (ExecutorFacts.run_evaluation_pipeline evaluate _ 1 _ _ _ _ _ H1 H2)
    as Hrun.
  eexists _, _, _, _. split; [exact Hrun|].
  split; [apply elem_of_cons; right; apply elem_of_cons; by left|].
  split.
  - intros label expl ->. unfold collected. split.
    + rewrite lookup_insert_ne by (by vm_compute). apply lookup_insert_eq.
    + apply lookup_insert_eq.
  - unfold quality_control_evaluator.evaluate_qc_system, try_except, bind, external.
    cbn [quality_control_evaluator.pipeline quality_control_evaluator.init].
    fold (audited content qc_assessment qc_decision requirements).
    rewrite Hrun. cbv beta iota. unfold ret. cbn [app].
    split; [reflexivity|]. split.
    + rewrite lookup_insert_ne by done. apply lookup_singleton_eq.
    + split; [apply lookup_insert_eq|].
      rewrite lookup_insert_ne by done. apply lookup_singleton_eq.
Qed.

Lemma failure_analysis_always_present_witness :
  ∃ d fa,
    (quality_control_evaluator.evaluate_qc_system (run (mocks.unit_fixed "random"))
       quality_control_evaluator.init
       "Na + Cl gives NaCl" "Clear and grade-appropriate." "pass"
       "Balance in all equations" tt).1.1 = Ok (Some d) ∧
    d !! "failure_analysis" = Some fa ∧
    fa !! "type" = Some "random".
Proof.
  destruct (failure_analysis_always_present (mocks.unit_fixed "random")
              "Na + Cl gives NaCl" "Clear and grade-appropriate." "pass"
              "Balance in all equations" tt
              (Returns ("reliable", "The assessment covers every requirement.")) tt
              (Returns ("random", "No recurring pattern.")) tt
              eq_refl eq_refl)
    as (m & diag & d & fa & Hrun & Hdiag & Hkeys & Heval & Hfa & Htype & Hexpl).
  exists d, fa. rewrite Heval. split; [done|]. split; [done|].
  rewrite Htype. f_equal. apply dict_get_some.
  exact (proj1 (Hkeys "random" "No recurring pattern." eq_refl)).
Defined.



End PipelineClaims.

(** ** Further facts about the refinement loop *)

Module QualityControlExtras.
Import llm_quality_control loop_spec run_spec.

Lemma usable_not_unusable (m : Dict) (diag : verdict.Diagnostics) v e :
  m !! (base_path +:+ "_choice") = Some v →
  m !! (base_path +:+ "_explanation") = Some e →
  v ≠ "" → e ≠ "" →
  ¬ unusable (Returns (m, diag)).
Proof. intros Hv He Hvne Hene [H|[H|[H|H]]]; congruence. Qed.

Lemma last_elem_of {A : Type} (l : list A) (x : A) : last l = Some x → x ∈ l.
Proof.
  intros [l' ->]%last_Some. apply elem_of_app. right. apply elem_of_cons. by left.
Qed.

Section Methods.
Context {World : Type}.

Variable pipeline_run :
  verdict.Pipeline -> Dict -> Z -> bool ->
  World -> Outcome (Dict * verdict.Diagnostics) * World.

Variable chat_completions_create :
  string -> list Message -> World -> Outcome (option string) * World.

Lemma while_loop_silent_without_fuel self requirements st w :
  (while_loop pipeline_run chat_completions_create 0 self requirements st w).2 = [].
Proof.
  simpl. destruct (iterations st <? max_iterations self); [done|].
  apply QualityControlFacts.after_loop_silent.
Qed.

Lemma while_loop_budget fuel self requirements st w :
  (evaluations
     (while_loop pipeline_run chat_completions_create fuel self requirements st w).2
   ≤ fuel)%nat ∧
  (regenerations
     (while_loop pipeline_run chat_completions_create fuel self requirements st w).2
   ≤ evaluations
       (while_loop pipeline_run chat_completions_create fuel self requirements st w).2)%nat ∧
  (evaluations
     (while_loop pipeline_run chat_completions_create fuel self requirements st w).2
   ≤ S (regenerations
          (while_loop pipeline_run chat_completions_create fuel self requirements st w).2))%nat.
Proof.
  revert st w. induction fuel as [|fuel IH]; intros st w.
  - rewrite while_loop_silent_without_fuel.
    unfold evaluations, regenerations. simpl. lia.
  - destruct (Z_lt_le_dec (iterations st) (max_iterations self)) as [Hlt|Hge].
    + rewrite QualityControlFacts.while_loop_enter by done. unfold bind.
      destruct (QualityControlFacts.loop_body_ends pipeline_run chat_completions_create
                  self requirements st w)
        as [out1 w1 Hrun Hbad
           |m diag e w1 Hrun Hv He Hene
           |m diag v e w1 out1 w2 Hrun Hv He Hvne Hpass Hene Hgen Hfail1
           |m diag v e w1 c w2 Hrun Hv He Hvne Hpass Hene Hgen Hc];
        try (unfold evaluations, regenerations; simpl; lia).
      specialize (IH (regenerated st (Some (assessment v e (current_content st))) c) w2).
      destruct (while_loop _ _ fuel self requirements _ w2) as [[r w'] t].
      unfold evaluations, regenerations in *. simpl in *. lia.
    + rewrite QualityControlFacts.while_loop_exit by lia.
      rewrite QualityControlFacts.after_loop_silent.
      unfold evaluations, regenerations. simpl. lia.
Qed.

(** X1.  A run of [improve_content] makes at most [max_iterations]
    pipeline runs (none when [max_iterations] is not positive), never more
    generation calls than pipeline runs, and at most one pipeline run more
    than generation calls. *)
Theorem improve_content_call_budget self content requirements w :
  (evaluations (improve_content pipeline_run chat_completions_create
                  self content requirements w).2
   ≤ Z.to_nat (max_iterations self))%nat ∧
  (regenerations (improve_content pipeline_run chat_completions_create
                    self content requirements w).2
   ≤ evaluations (improve_content pipeline_run chat_completions_create
                    self content requirements w).2)%nat ∧
  (evaluations (improve_content pipeline_run chat_completions_create
                  self content requirements w).2
   ≤ S (regenerations (improve_content pipeline_run chat_completions_create
                         self content requirements w).2))%nat.
Proof. apply while_loop_budget. Qed.

Lemma while_loop_unevaluated fuel self requirements st w p input mw g out :
  EvRun p input mw g out
    ∈ (while_loop pipeline_run chat_completions_create fuel self requirements st w).2 →
  unusable out →
  (while_loop pipeline_run chat_completions_create fuel self requirements st w).1.1
    = Ok None ∧
  last (while_loop pipeline_run chat_completions_create fuel self requirements st w).2
    = Some (EvRun p input mw g out).
Proof.
  revert st w. induction fuel as [|fuel IH]; intros st w Hin Hbad.
  - rewrite while_loop_silent_without_fuel in Hin. by apply elem_of_nil in Hin.
  - destruct (Z_lt_le_dec (iterations st) (max_iterations self)) as [Hlt|Hge].
    + revert Hin. rewrite QualityControlFacts.while_loop_enter by done. unfold bind.
      destruct (QualityControlFacts.loop_body_ends pipeline_run chat_completions_create
                  self requirements st w)
        as [out1 w1 Hrun Hbad1
           |m diag e w1 Hrun Hv He Hene
           |m diag v e w1 out1 w2 Hrun Hv He Hvne Hpass Hene Hgen Hfail1
           |m diag v e w1 c w2 Hrun Hv He Hvne Hpass Hene Hgen Hc].
      * simpl. intros [Heq|?%elem_of_nil]%elem_of_cons; [|done]. by rewrite Heq.
      * simpl. intros [Heq|?%elem_of_nil]%elem_of_cons; [|done].
        injection Heq as -> -> -> -> ->.
        by destruct (usable_not_unusable m diag "pass" e).
      * simpl.
        intros [Heq|[?|?%elem_of_nil]%elem_of_cons]%elem_of_cons;
          [|discriminate|done].
        injection Heq as -> -> -> -> ->.
        by destruct (usable_not_unusable m diag v e).
      * specialize (IH (regenerated st (Some (assessment v e (current_content st))) c) w2).
        destruct (while_loop _ _ fuel self requirements _ w2) as [[r w'] t].
        cbn [fst snd] in *.
        intros [Heq|[?|Hin]%elem_of_cons]%elem_of_cons; [|discriminate|].
        -- injection Heq as -> -> -> -> ->.
           by destruct (usable_not_unusable m diag v e).
        -- destruct (IH Hin Hbad) as [-> Hlast]. split; [done|].
           cbn [app]. by rewrite !last_cons, Hlast.
    + exfalso. revert Hin. rewrite QualityControlFacts.while_loop_exit by lia.
      rewrite QualityControlFacts.after_loop_silent. by intros ?%elem_of_nil.
Qed.

(** X2.  Whenever a pipeline run of [improve_content] gives no usable
    result (it raised, or the verdict or the explanation is absent or
    empty), the loop stops there: [improve_content] returns [None] and that
    run is the last call it made; no generation call follows. *)
Theorem improve_content_stops_unevaluated self content requirements w p input mw g out :
  EvRun p input mw g out
    ∈ (improve_content pipeline_run chat_completions_create
         self content requirements w).2 →
  unusable out →
  (improve_content pipeline_run chat_completions_create
     self content requirements w).1.1 = Ok None ∧
  last (improve_content pipeline_run chat_completions_create
          self content requirements w).2 = Some (EvRun p input mw g out).
Proof. apply while_loop_unevaluated. Qed.

Lemma while_loop_pass_is_last fuel self requirements st w p input mw g m diag e :
  EvRun p input mw g (Returns (m, diag))
    ∈ (while_loop pipeline_run chat_completions_create fuel self requirements st w).2 →
  m !! (base_path +:+ "_choice") = Some "pass" →
  m !! (base_path +:+ "_explanation") = Some e →
  e ≠ "" →
  ∃ c,
    input !! "content" = Some c ∧
    (while_loop pipeline_run chat_completions_create fuel self requirements st w).1.1
      = Ok (Some (assessment "pass" e c)) ∧
    last (while_loop pipeline_run chat_completions_create fuel self requirements st w).2
      = Some (EvRun p input mw g (Returns (m, diag))).
Proof.
  revert st w. induction fuel as [|fuel IH]; intros st w Hin Hpassed Hexpl Hne.
  - rewrite while_loop_silent_without_fuel in Hin. by apply elem_of_nil in Hin.
  - destruct (Z_lt_le_dec (iterations st) (max_iterations self)) as [Hlt|Hge].
    + revert Hin. rewrite QualityControlFacts.while_loop_enter by done. unfold bind.
      destruct (QualityControlFacts.loop_body_ends pipeline_run chat_completions_create
                  self requirements st w)
        as [out1 w1 Hrun Hbad1
           |m1 diag1 e1 w1 Hrun Hv He Hene
           |m1 diag1 v e1 w1 out1 w2 Hrun Hv He Hvne Hpass Hene Hgen Hfail1
           |m1 diag1 v e1 w1 c w2 Hrun Hv He Hvne Hpass Hene Hgen Hc].
      * simpl. intros [Heq|?%elem_of_nil]%elem_of_cons; [|done].
        injection Heq as -> -> -> -> <-.
        by destruct (usable_not_unusable m diag "pass" e).
      * simpl. intros [Heq|?%elem_of_nil]%elem_of_cons; [|done].
        injection Heq as -> -> -> -> -> ->.
        assert (e1 = e) as -> by congruence.
        exists (current_content st).
        by rewrite QualityControlFacts.submitted_content.
      * simpl.
        intros [Heq|[?|?%elem_of_nil]%elem_of_cons]%elem_of_cons;
          [|discriminate|done].
        injection Heq as -> -> -> -> -> ->. congruence.
      * specialize (IH (regenerated st (Some (assessment v e1 (current_content st))) c) w2).
        destruct (while_loop _ _ fuel self requirements _ w2) as [[r w'] t].
        cbn [fst snd] in *.
        intros [Heq|[?|Hin]%elem_of_cons]%elem_of_cons; [|discriminate|].
        -- injection Heq as -> -> -> -> -> ->. congruence.
        -- destruct (IH Hin Hpassed Hexpl Hne) as (c' & Hc' & -> & Hlast).
           exists c'. split; [done|]. split; [done|].
           cbn [app]. by rewrite !last_cons, Hlast.
    + exfalso. revert Hin. rewrite QualityControlFacts.while_loop_exit by lia.
      rewrite QualityControlFacts.after_loop_silent. by intros ?%elem_of_nil.
Qed.

(** X3.  A pipeline run whose verdict is exactly [pass] (with a non-empty
    explanation) ends the loop: it is the last call of the run, and
    [improve_content] returns the dict with that verdict and explanation
    and with the content that was submitted to that run. *)
Theorem improve_content_pass_is_last self content requirements w p input mw g m diag e :
  EvRun p input mw g (Returns (m, diag))
    ∈ (improve_content pipeline_run chat_completions_create
         self content requirements w).2 →
  m !! (base_path +:+ "_choice") = Some "pass" →
  m !! (base_path +:+ "_explanation") = Some e →
  e ≠ "" →
  ∃ c,
    input !! "content" = Some c ∧
    (improve_content pipeline_run chat_completions_create
       self content requirements w).1.1 = Ok (Some (assessment "pass" e c)) ∧
    last (improve_content pipeline_run chat_completions_create
            self content requirements w).2
      = Some (EvRun p input mw g (Returns (m, diag))).
Proof. apply while_loop_pass_is_last. Qed.

Lemma while_loop_result_shape self requirements :
  ∀ fuel st w d,
    fuel = Z.to_nat (max_iterations self - iterations st) →
    (∀ d0, result st = Bound (Some d0) →
           ∃ v e c, d0 = assessment v e c ∧ v ≠ "" ∧ v ≠ "pass" ∧ e ≠ "") →
    (while_loop pipeline_run chat_completions_create fuel self requirements st w).1.1
      = Ok (Some d) →
    ((while_loop pipeline_run chat_completions_create fuel self requirements st w).2 = [] ∧
     result st = Bound (Some d) ∧ fuel = 0%nat)
    ∨
    (∃ v e c ev,
       d = assessment v e c ∧ v ≠ "" ∧ e ≠ "" ∧
       last (runs (while_loop pipeline_run chat_completions_create
                     fuel self requirements st w).2) = Some ev ∧
       submitted_content_of ev = Some c ∧
       ((v = "pass" ∧
         evaluations (while_loop pipeline_run chat_completions_create
                        fuel self requirements st w).2
         = S (regenerations (while_loop pipeline_run chat_completions_create
                               fuel self requirements st w).2))
        ∨
        (v ≠ "pass" ∧
         evaluations (while_loop pipeline_run chat_completions_create
                        fuel self requirements st w).2 = fuel ∧
         regenerations (while_loop pipeline_run chat_completions_create
                          fuel self requirements st w).2 = fuel))).
Proof.
  induction fuel as [|fuel IH]; intros st w d Hfuel Hbound.
  - rewrite QualityControlFacts.while_loop_exit by lia.
    unfold after_loop. destruct (result st) as [|r] eqn:Hr; [done|].
    cbn. intros [= ->]. by left.
  - assert (iterations st < max_iterations self) as Hlt by lia.
    rewrite QualityControlFacts.while_loop_enter by done. unfold bind.
    destruct (QualityControlFacts.loop_body_ends pipeline_run chat_completions_create
                self requirements st w)
      as [out1 w1 Hrun Hbad1
         |m diag e w1 Hrun Hv He Hene
         |m diag v e w1 out1 w2 Hrun Hv He Hvne Hpass Hene Hgen Hfail1
         |m diag v e w1 c w2 Hrun Hv He Hvne Hpass Hene Hgen Hc];
      [done| |done|].
    + cbn. intros [= <-]. right.
      eexists "pass", e, (current_content st), _.
      split; [done|]. split; [done|]. split; [done|]. split; [reflexivity|].
      split; [apply QualityControlFacts.submitted_content|]. by left.
    + specialize (IH (regenerated st (Some (assessment v e (current_content st))) c) w2 d).
      destruct (while_loop _ _ fuel self requirements _ w2) as [[r w'] t].
      cbn [fst snd app] in *. intros ->. right.
      destruct IH as [(-> & [= <-] & ->)|(v' & e' & c' & ev & -> & Hv' & He' & Hlast & Hsub & Hcount)].
      * simpl. lia.
      * intros d0 [= <-]. by exists v, e, (current_content st).
      * done.
      * eexists v, e, (current_content st), _.
        split; [done|]. split; [done|]. split; [done|]. split; [reflexivity|].
        split; [apply QualityControlFacts.submitted_content|]. by right.
      * exists v', e', c', ev.
        split; [done|]. split; [done|]. split; [done|]. split.
        { unfold runs in *. cbn [List.filter is_run]. by rewrite last_cons, Hlast. }
        split; [done|].
        unfold evaluations, regenerations in *. cbn [List.filter is_run is_create length].
        destruct Hcount as [[-> ->]|(? & -> & ->)]; [by left|by right].
Qed.

(** X4.  When [improve_content] returns a result, it is the complete dict
    of the last evaluation made, with the content submitted to it.  Either
    its verdict is [pass], and no generation call followed that evaluation;
    or its verdict is something else, and then the whole budget of
    [max_iterations] evaluations was used, each followed by a generation
    call, the last of which produced content that is not returned. *)
Theorem improve_content_result_shape self content requirements w d :
  (improve_content pipeline_run chat_completions_create
     self content requirements w).1.1 = Ok (Some d) →
  ∃ v e c ev,
    d = assessment v e c ∧ v ≠ "" ∧ e ≠ "" ∧
    last (runs (improve_content pipeline_run chat_completions_create
                  self content requirements w).2) = Some ev ∧
    submitted_content_of ev = Some c ∧
    ((v = "pass" ∧
      evaluations (improve_content pipeline_run chat_completions_create
                     self content requirements w).2
      = S (regenerations (improve_content pipeline_run chat_completions_create
                            self content requirements w).2))
     ∨
     (v ≠ "pass" ∧
      evaluations (improve_content pipeline_run chat_completions_create
                     self content requirements w).2 = Z.to_nat (max_iterations self) ∧
      regenerations (improve_content pipeline_run chat_completions_create
                       self content requirements w).2 = Z.to_nat (max_iterations self))).
Proof.
  intros Hres.
  destruct (while_loop_result_shape self requirements
              (Z.to_nat (max_iterations self)) (initial_locals content) w d)
    as [(_ & Hbound & _)|Hshape]; try done.
  simpl. f_equal. lia.
Qed.

Lemma while_loop_none_cause fuel self requirements st w :
  result st ≠ Bound None →
  (while_loop pipeline_run chat_completions_create fuel self requirements st w).1.1
    = Ok None →
  ∃ ev,
    last (while_loop pipeline_run chat_completions_create fuel self requirements st w).2
      = Some ev ∧
    failed_call ev.
Proof.
  revert st w. induction fuel as [|fuel IH]; intros st w Hbound.
  - simpl. destruct (iterations st <? max_iterations self); [done|].
    unfold after_loop. destruct (result st) as [|[d|]]; done.
  - destruct (Z_lt_le_dec (iterations st) (max_iterations self)) as [Hlt|Hge].
    + rewrite QualityControlFacts.while_loop_enter by done. unfold bind.
      destruct (QualityControlFacts.loop_body_ends pipeline_run chat_completions_create
                  self requirements st w)
        as [out1 w1 Hrun Hbad1
           |m diag e w1 Hrun Hv He Hene
           |m diag v e w1 out1 w2 Hrun Hv He Hvne Hpass Hene Hgen Hfail1
           |m diag v e w1 c w2 Hrun Hv He Hvne Hpass Hene Hgen Hc].
      * intros _. by eexists.
      * done.
      * intros _. by eexists.
      * specialize (IH (regenerated st (Some (assessment v e (current_content st))) c) w2).
        destruct (while_loop _ _ fuel self requirements _ w2) as [[r w'] t].
        cbn [fst snd app] in *. intros ->.
        destruct IH as (ev & Hlast & Hfailed); [done|done|].
        exists ev. by rewrite !last_cons, Hlast.
    + rewrite QualityControlFacts.while_loop_exit by lia.
      unfold after_loop. destruct (result st) as [|[d|]]; done.
Qed.

(** X5.  [improve_content] returns [None] exactly when the last call it
    made failed: a pipeline run without a usable result or a generation
    call without content.  It never returns [None] without having called
    anything. *)
Theorem improve_content_none_iff_failed_call self content requirements w :
  (improve_content pipeline_run chat_completions_create
     self content requirements w).1.1 = Ok None
  ↔
  ∃ ev,
    last (improve_content pipeline_run chat_completions_create
            self content requirements w).2 = Some ev ∧
    failed_call ev.
Proof.
  split.
  - by apply while_loop_none_cause.
  - intros (ev & Hlast & Hfailed).
    pose proof (last_elem_of _ _ Hlast) as Hin.
    destruct ev as [p input mw g out|model messages out].
    + by destruct (while_loop_unevaluated _ _ _ _ _ _ _ _ _ _ Hin Hfailed).
    + by destruct (QualityControlFacts.while_loop_aborts
                     _ _ _ _ _ _ _ _ _ _ Hin Hfailed).
Qed.

(** X6.  Against a judge that answers [revise] to every evaluation and an
    improvement capability that always produces content, a controller with
    any [max_iterations >= 1] makes exactly [max_iterations] evaluations and
    exactly [max_iterations] generation calls and returns a result whose
    verdict is [revise]. *)
Theorem improve_content_exhausts_budget self content requirements w :
  1 ≤ max_iterations self →
  judge_always pipeline_run "revise" →
  improvement_always_succeeds chat_completions_create →
  ∃ d w' t,
    improve_content pipeline_run chat_completions_create self content requirements w
      = (Ok (Some d), w', t) ∧
    evaluations t = Z.to_nat (max_iterations self) ∧
    regenerations t = Z.to_nat (max_iterations self) ∧
    d !! "verdict" = Some "revise".
Proof.
  intros Hmax Hjudge Himprove. unfold improve_content.
  destruct (QualityControlFacts.while_loop_exhausts pipeline_run chat_completions_create
              self requirements Hjudge Himprove
              (Z.to_nat (max_iterations self)) (initial_locals content) w)
    as (d & w' & t & Hrun & Hevals & Hregens & Hverdict & _).
  - simpl. f_equal. lia.
  - left. simpl. lia.
  - by exists d, w', t.
Qed.

(** X7.  When the first evaluation passes, [improve_content] returns at
    once: one pipeline run, no generation call, and the returned dict
    carries the content it was given, unchanged. *)
Theorem improve_content_passes_first self content requirements w m diag e w1 :
  1 ≤ max_iterations self →
  pipeline_run (pipeline self) (submitted self content requirements) 1 true w
    = (Returns (m, diag), w1) →
  m !! (base_path +:+ "_choice") = Some "pass" →
  m !! (base_path +:+ "_explanation") = Some e →
  e ≠ "" →
  improve_content pipeline_run chat_completions_create self content requirements w
    = (Ok (Some (assessment "pass" e content)), w1,
       [EvRun (pipeline self) (submitted self content requirements) 1 true
          (Returns (m, diag))]).
Proof.
  intros Hmax Hrun Hv He Hene. unfold improve_content.
  destruct (Z.to_nat (max_iterations self)) as [|fuel] eqn:Hfuel; [lia|].
  rewrite QualityControlFacts.while_loop_enter by (simpl; lia). unfold bind.
  by rewrite (QualityControlFacts.loop_body_passes _ _ _ _ (initial_locals content)
                _ _ _ _ _ Hrun Hv He Hene).
Qed.

Lemma while_loop_starts_with_run fuel self requirements st w model messages out :
  (while_loop pipeline_run chat_completions_create fuel self requirements st w).2 !! 0%nat
    ≠ Some (EvCreate model messages out).
Proof.
  pose proof (QualityControlFacts.while_loop_alternates
                pipeline_run chat_completions_create fuel self requirements st w) as Halt.
  destruct (while_loop _ _ fuel self requirements st w) as [[r w'] t].
  cbn [snd] in *. by destruct t as [|[p input mw g o|model' messages' out'] rest].
Qed.

Lemma while_loop_regeneration_follows fuel self requirements st w i model messages out :
  (while_loop pipeline_run chat_completions_create fuel self requirements st w).2 !! S i
    = Some (EvCreate model messages out) →
  ∃ input m diag c v e,
    (while_loop pipeline_run chat_completions_create fuel self requirements st w).2 !! i
      = Some (EvRun (pipeline self) input 1 true (Returns (m, diag))) ∧
    input !! "content" = Some c ∧
    m !! (base_path +:+ "_choice") = Some v ∧ v ≠ "pass" ∧
    m !! (base_path +:+ "_explanation") = Some e ∧
    model = "gpt-4o-mini" ∧
    messages = user_message (improvement_prompt c e).
Proof.
  revert st w i. induction fuel as [|fuel IH]; intros st w i.
  - by rewrite while_loop_silent_without_fuel.
  - destruct (Z_lt_le_dec (iterations st) (max_iterations self)) as [Hlt|Hge].
    + rewrite QualityControlFacts.while_loop_enter by done. unfold bind.
      destruct (QualityControlFacts.loop_body_ends pipeline_run chat_completions_create
                  self requirements st w)
        as [out1 w1 Hrun Hbad1
           |m diag e w1 Hrun Hv He Hene
           |m diag v e w1 out1 w2 Hrun Hv He Hvne Hpass Hene Hgen Hfail1
           |m diag v e w1 c w2 Hrun Hv He Hvne Hpass Hene Hgen Hc].
      * done.
      * done.
      * cbn [fst snd app]. destruct i as [|i]; [|done].
        intros [= <- <- <-].
        eexists _, m, diag, (current_content st), v, e.
        split; [reflexivity|].
        by rewrite QualityControlFacts.submitted_content.
      * pose proof (while_loop_starts_with_run fuel self requirements
                      (regenerated st (Some (assessment v e (current_content st))) c) w2)
          as Hstart.
        specialize (IH (regenerated st (Some (assessment v e (current_content st))) c) w2).
        destruct (while_loop _ _ fuel self requirements _ w2) as [[r w'] t].
        cbn [fst snd app] in *. destruct i as [|[|i]].
        -- intros [= <- <- <-].
           eexists _, m, diag, (current_content st), v, e.
           split; [reflexivity|].
           by rewrite QualityControlFacts.submitted_content.
        -- intros Hhead. by destruct (Hstart model messages out).
        -- intros Hi. exact (IH i Hi).
    + rewrite QualityControlFacts.while_loop_exit by lia.
      by rewrite QualityControlFacts.after_loop_silent.
Qed.

(** X8.  A run of [improve_content] never begins with a generation call,
    and every generation call directly follows a pipeline run that returned
    a verdict other than [pass]: it goes to model [gpt-4o-mini] with one
    user message, the improvement prompt built from the content that run
    was given and from the explanation that run returned. *)
Theorem regeneration_follows_judgement self content requirements w :
  (∀ model messages out,
     (improve_content pipeline_run chat_completions_create
        self content requirements w).2 !! 0%nat
     ≠ Some (EvCreate model messages out))
  ∧
  (∀ i model messages out,
     (improve_content pipeline_run chat_completions_create
        self content requirements w).2 !! S i
       = Some (EvCreate model messages out) →
     ∃ input m diag c v e,
       (improve_content pipeline_run chat_completions_create
          self content requirements w).2 !! i
         = Some (EvRun (pipeline self) input 1 true (Returns (m, diag))) ∧
       input !! "content" = Some c ∧
       m !! (base_path +:+ "_choice") = Some v ∧ v ≠ "pass" ∧
       m !! (base_path +:+ "_explanation") = Some e ∧
       model = "gpt-4o-mini" ∧
       messages = user_message (improvement_prompt c e)).
Proof.
  split.
  - intros model messages out. apply while_loop_starts_with_run.
  - intros i model messages out. apply while_loop_regeneration_follows.
Qed.

Lemma while_loop_runs_uniform fuel self requirements st w p input mw g out :
  EvRun p input mw g out
    ∈ (while_loop pipeline_run chat_completions_create fuel self requirements st w).2 →
  p = pipeline self ∧ mw = 1 ∧ g = true ∧
  input !! "requirements" = Some requirements ∧
  input !! "content_type" = Some (content_type self) ∧
  dom input = {[ "content"; "requirements"; "content_type" ]}.
Proof.
  assert (∀ c,
            submitted self c requirements !! "requirements" = Some requirements ∧
            submitted self c requirements !! "content_type" = Some (content_type self) ∧
            dom (submitted self c requirements)
            = {[ "content"; "requirements"; "content_type" ]}) as Hsub.
  { intros c. unfold submitted, verdict.Schema_of. simpl.
    split; [rewrite lookup_insert_ne by done; apply lookup_insert_eq|].
    split; [rewrite !lookup_insert_ne by done; apply lookup_insert_eq|].
    rewrite !dom_insert_L, dom_empty_L. set_solver. }
  revert st w. induction fuel as [|fuel IH]; intros st w Hin.
  - rewrite while_loop_silent_without_fuel in Hin. by apply elem_of_nil in Hin.
  - destruct (Z_lt_le_dec (iterations st) (max_iterations self)) as [Hlt|Hge].
    + revert Hin. rewrite QualityControlFacts.while_loop_enter by done. unfold bind.
      destruct (QualityControlFacts.loop_body_ends pipeline_run chat_completions_create
                  self requirements st w)
        as [out1 w1 Hrun Hbad1
           |m diag e w1 Hrun Hv He Hene
           |m diag v e w1 out1 w2 Hrun Hv He Hvne Hpass Hene Hgen Hfail1
           |m diag v e w1 c w2 Hrun Hv He Hvne Hpass Hene Hgen Hc].
      * simpl. intros [Heq|?%elem_of_nil]%elem_of_cons; [|done].
        injection Heq as -> -> -> -> ->. by destruct (Hsub (current_content st)).
      * simpl. intros [Heq|?%elem_of_nil]%elem_of_cons; [|done].
        injection Heq as -> -> -> -> ->. by destruct (Hsub (current_content st)).
      * simpl.
        intros [Heq|[?|?%elem_of_nil]%elem_of_cons]%elem_of_cons;
          [|discriminate|done].
        injection Heq as -> -> -> -> ->. by destruct (Hsub (current_content st)).
      * specialize (IH (regenerated st (Some (assessment v e (current_content st))) c) w2).
        destruct (while_loop _ _ fuel self requirements _ w2) as [[r w'] t].
        cbn [fst snd] in *.
        intros [Heq|[?|Hin]%elem_of_cons]%elem_of_cons; [|discriminate|by apply IH].
        injection Heq as -> -> -> -> ->. by destruct (Hsub (current_content st)).
    + exfalso. revert Hin. rewrite QualityControlFacts.while_loop_exit by lia.
      rewrite QualityControlFacts.after_loop_silent. by intros ?%elem_of_nil.
Qed.

(** X9.  Every pipeline run of [improve_content] is a run of the
    controller's own pipeline with [max_workers = 1] and [graceful = True],
    on an input record with exactly the fields [content], [requirements]
    and [content_type]; the requirements and the content type are the same
    in every cycle, only the content changes. *)
Theorem improve_content_runs_uniform self content requirements w p input mw g out :
  EvRun p input mw g out
    ∈ (improve_content pipeline_run chat_completions_create
         self content requirements w).2 →
  p = pipeline self ∧ mw = 1 ∧ g = true ∧
  input !! "requirements" = Some requirements ∧
  input !! "content_type" = Some (content_type self) ∧
  dom input = {[ "content"; "requirements"; "content_type" ]}.
Proof. apply while_loop_runs_uniform. Qed.

(** X10.  [generate_improved_content] never raises: it makes exactly one
    generation call, to model [gpt-4o-mini] with one user message, the
    improvement prompt; it hands back the content of the answer unchanged,
    and [None] when the call raised. *)
Theorem generate_improved_content_contained self original feedback w :
  ∃ out w1,
    chat_completions_create "gpt-4o-mini"
      (user_message (improvement_prompt original feedback)) w = (out, w1) ∧
    generate_improved_content chat_completions_create self original feedback w
      = (Ok (match out with Returns c => c | Raises _ => None end), w1,
         [EvCreate "gpt-4o-mini"
            (user_message (improvement_prompt original feedback)) out]) ∧
    (truthy_opt_str (match out with Returns c => c | Raises _ => None end) = false
     ↔ generation_failed out = true).
Proof.
  destruct (chat_completions_create "gpt-4o-mini"
              (user_message (improvement_prompt original feedback)) w)
    as [out w1] eqn:Hgen.
  exists out, w1. split; [done|].
  split; [by apply QualityControlFacts.generate_improved_content_returns|].
  destruct out as [[c|]|exn]; simpl; [|done..].
  by rewrite negb_true_iff.
Qed.

(** X11.  [evaluate_content] makes exactly one call, a run of the
    controller's pipeline with [max_workers = 1] and [graceful = True] on
    the record of content, requirements and content type; it never calls
    the generation service, and it passes a non-empty verdict on as it is,
    whether or not it is one of the judge's two labels. *)
Theorem evaluate_content_one_run self content requirements w :
  ∃ out w1 r,
    pipeline_run (pipeline self) (submitted self content requirements) 1 true w
      = (out, w1) ∧
    evaluate_content pipeline_run self content requirements w
      = (Ok r, w1,
         [EvRun (pipeline self) (submitted self content requirements) 1 true out]) ∧
    (∀ m diag v e,
       out = Returns (m, diag) →
       m !! (base_path +:+ "_choice") = Some v →
       m !! (base_path +:+ "_explanation") = Some e →
       v ≠ "" → e ≠ "" →
       r = Some (assessment v e content)).
Proof.
  destruct (pipeline_run (pipeline self) (submitted self content requirements) 1 true w)
    as [out w1] eqn:Hrun.
  destruct (QualityControlFacts.run_outcome_cases out)
    as [Hbad|(m & diag & v & e & -> & Hv & He & Hvne & Hene)].
  - exists out, w1, None. split; [done|].
    split; [by apply QualityControlFacts.evaluate_content_unusable|].
    intros m diag v e -> Hv He Hvne Hene.
    by destruct (usable_not_unusable m diag v e).
  - exists (Returns (m, diag)), w1, (Some (assessment v e content)).
    split; [done|].
    split; [by apply QualityControlFacts.evaluate_content_usable|].
    intros m' diag' v' e' [= <- <-] Hv' He' _ _. congruence.
Qed.


End Methods.

(** *** Instances *)

Lemma improve_content_stops_unevaluated_witness :
  (improve_content mocks.judge_unreachable mocks.generator_ok
     init_default INITIAL_CONTENT "Mention chlorophyll." tt).1.1 = Ok None ∧
  last (improve_content mocks.judge_unreachable mocks.generator_ok
          init_default INITIAL_CONTENT "Mention chlorophyll." tt).2
    = Some (EvRun (pipeline init_default)
              (submitted init_default INITIAL_CONTENT "Mention chlorophyll.") 1 true
              (Raises (Exception "connection refused"))).
Proof.
  apply improve_content_stops_unevaluated.
  - vm_compute. apply elem_of_cons. by left.
  - exact I.
Defined.

Lemma improve_content_pass_is_last_witness :
  ∃ c,
    submitted (init "text" 5) "Plants use chlorophyll, water, CO2 and sunlight."
      "Mention chlorophyll." !! "content" = Some c ∧
    (improve_content mocks.judge_revise_then_pass mocks.generator_ok
       (init "text" 5) INITIAL_CONTENT "Mention chlorophyll." 0%nat).1.1
      = Ok (Some (assessment "pass" "Accurate and complete." c)) ∧
    last (improve_content mocks.judge_revise_then_pass mocks.generator_ok
            (init "text" 5) INITIAL_CONTENT "Mention chlorophyll." 0%nat).2
      = Some (EvRun (pipeline (init "text" 5))
                (submitted (init "text" 5)
                   "Plants use chlorophyll, water, CO2 and sunlight."
                   "Mention chlorophyll.") 1 true
                (Returns (mocks.judged "pass" "Accurate and complete."))).
Proof.
  apply (improve_content_pass_is_last
           mocks.judge_revise_then_pass mocks.generator_ok
           (init "text" 5) INITIAL_CONTENT "Mention chlorophyll." 0%nat).
  - vm_compute. apply elem_of_cons. right. apply elem_of_cons. right.
    apply elem_of_cons. by left.
  - by vm_compute.
  - by vm_compute.
  - done.
Defined.

Lemma improve_content_result_shape_witness :
  ∃ v e c ev,
    assessment "pass" "Accurate and complete."
      "Plants use chlorophyll, water, CO2 and sunlight." = assessment v e c ∧
    v ≠ "" ∧ e ≠ "" ∧
    last (runs (improve_content mocks.judge_revise_then_pass mocks.generator_ok
                  (init "text" 5) INITIAL_CONTENT "Mention chlorophyll." 0%nat).2)
      = Some ev ∧
    submitted_content_of ev = Some c ∧
    ((v = "pass" ∧
      evaluations (improve_content mocks.judge_revise_then_pass mocks.generator_ok
                     (init "text" 5) INITIAL_CONTENT "Mention chlorophyll." 0%nat).2
      = S (regenerations
             (improve_content mocks.judge_revise_then_pass mocks.generator_ok
                (init "text" 5) INITIAL_CONTENT "Mention chlorophyll." 0%nat).2))
     ∨
     (v ≠ "pass" ∧
      evaluations (improve_content mocks.judge_revise_then_pass mocks.generator_ok
                     (init "text" 5) INITIAL_CONTENT "Mention chlorophyll." 0%nat).2
      = Z.to_nat (max_iterations (init "text" 5)) ∧
      regenerations (improve_content mocks.judge_revise_then_pass mocks.generator_ok
                       (init "text" 5) INITIAL_CONTENT "Mention chlorophyll." 0%nat).2
      = Z.to_nat (max_iterations (init "text" 5)))).
Proof.
  apply (improve_content_result_shape
           mocks.judge_revise_then_pass mocks.generator_ok
           (init "text" 5) INITIAL_CONTENT "Mention chlorophyll." 0%nat).
  by vm_compute.
Defined.

Lemma improve_content_exhausts_budget_witness :
  ∃ d w' t,
    improve_content mocks.judge_always_revise mocks.generator_ok
      (init "text" 5) INITIAL_CONTENT "Mention chlorophyll." tt = (Ok (Some d), w', t) ∧
    evaluations t = Z.to_nat (max_iterations (init "text" 5)) ∧
    regenerations t = Z.to_nat (max_iterations (init "text" 5)) ∧
    d !! "verdict" = Some "revise".
Proof.
  apply improve_content_exhausts_budget.
  - simpl. lia.
  - apply QualityControlFacts.judge_always_revise_spec.
  - apply QualityControlFacts.generator_ok_spec.
Defined.

Lemma improve_content_passes_first_witness :
  improve_content more_mocks.judge_always_pass mocks.generator_down
    init_default INITIAL_CONTENT "Mention chlorophyll." tt
  = (Ok (Some (assessment "pass" "Accurate and complete." INITIAL_CONTENT)), tt,
     [EvRun (pipeline init_default)
        (submitted init_default INITIAL_CONTENT "Mention chlorophyll.") 1 true
        (Returns (mocks.judged "pass" "Accurate and complete."))]).
Proof.
  apply improve_content_passes_first.
  - simpl. lia.
  - reflexivity.
  - by vm_compute.
  - by vm_compute.
  - done.
Defined.

Lemma regeneration_follows_judgement_witness :
  ∃ input m diag c v e,
    (improve_content mocks.judge_always_revise mocks.generator_ok
       init_default INITIAL_CONTENT "Mention chlorophyll." tt).2 !! 2%nat
      = Some (EvRun (pipeline init_default) input 1 true (Returns (m, diag))) ∧
    input !! "content" = Some c ∧
    m !! (base_path +:+ "_choice") = Some v ∧ v ≠ "pass" ∧
    m !! (base_path +:+ "_explanation") = Some e ∧
    "gpt-4o-mini" = "gpt-4o-mini" ∧
    user_message
      (improvement_prompt "Plants use chlorophyll, water, CO2 and sunlight."
         "The role of chlorophyll is missing.")
    = user_message (improvement_prompt c e).
Proof.
  apply (proj2 (regeneration_follows_judgement
                  mocks.judge_always_revise mocks.generator_ok
                  init_default INITIAL_CONTENT "Mention chlorophyll." tt)
           2%nat "gpt-4o-mini"
           (user_message
              (improvement_prompt "Plants use chlorophyll, water, CO2 and sunlight."
                 "The role of chlorophyll is missing."))
           (Returns (Some "Plants use chlorophyll, water, CO2 and sunlight."))).
  by vm_compute.
Defined.

Lemma improve_content_runs_uniform_witness :
  pipeline init_default = pipeline init_default ∧ 1 = 1 ∧ true = true ∧
  submitted init_default INITIAL_CONTENT "Mention chlorophyll." !! "requirements"
    = Some "Mention chlorophyll." ∧
  submitted init_default INITIAL_CONTENT "Mention chlorophyll." !! "content_type"
    = Some (content_type init_default) ∧
  dom (submitted init_default INITIAL_CONTENT "Mention chlorophyll.")
    = {[ "content"; "requirements"; "content_type" ]}.
Proof.
  apply (improve_content_runs_uniform mocks.judge_unreachable mocks.generator_ok
           init_default INITIAL_CONTENT "Mention chlorophyll." tt
           (pipeline init_default)
           (submitted init_default INITIAL_CONTENT "Mention chlorophyll.") 1 true
           (Raises (Exception "connection refused"))).
  vm_compute. apply elem_of_cons. by left.
Defined.

End QualityControlExtras.

(** ** Further facts about the two other scripts *)

Module ScriptExtras.
Import pipeline_spec run_spec.

Lemma audit_of_sections (m : Dict) :
  audit_of m !! "meta_evaluation"
    = Some ({[ "verdict" :=
                 dict_get m (quality_control_evaluator.base_path
                             +:+ "[0].unit[CategoricalJudge MetaJudge]_choice");
               "explanation" :=
                 dict_get m (quality_control_evaluator.base_path
                             +:+ "[0].unit[CategoricalJudge MetaJudge]_explanation") ]}
            : Dict) ∧
  audit_of m !! "failure_analysis"
    = Some ({[ "type" :=
                 dict_get m (quality_control_evaluator.base_path
                             +:+ "[1].unit[CategoricalJudge FailureAnalyzer]_choice");
               "explanation" :=
                 dict_get m (quality_control_evaluator.base_path
                             +:+ "[1].unit[CategoricalJudge FailureAnalyzer]_explanation") ]}
            : Dict) ∧
  audit_of m ≠ ∅.
Proof.
  unfold audit_of. split; [apply lookup_insert_eq|].
  split; [|apply insert_non_empty].
  rewrite lookup_insert_ne by done. apply lookup_singleton_eq.
Qed.

Section Methods.
Context {World : Type}.

Variable pipeline_run :
  verdict.Pipeline -> Dict -> Z -> bool ->
  World -> Outcome (Dict * verdict.Diagnostics) * World.

Lemma evaluate_qc_system_returns self content qc_assessment qc_decision requirements
    w out w1 :
  pipeline_run (quality_control_evaluator.pipeline self)
    (audited content qc_assessment qc_decision requirements) 1 true w = (out, w1) →
  quality_control_evaluator.evaluate_qc_system pipeline_run self
      content qc_assessment qc_decision requirements w
    = (Ok (match out with
           | Returns (m, _) => Some (audit_of m)
           | Raises _ => None
           end), w1,
       [EvRun (quality_control_evaluator.pipeline self)
          (audited content qc_assessment qc_decision requirements) 1 true out]).
Proof.
  intros Hrun.
  unfold quality_control_evaluator.evaluate_qc_system, try_except, bind, external.
  fold (audited content qc_assessment qc_decision requirements).
  rewrite Hrun. by destruct out as [[m diag]|exn].
Qed.

(** X13.  [evaluate_qc_system] never raises and makes exactly one call, a
    run of the evaluator's pipeline with [max_workers = 1] and
    [graceful = True] on the record of content, assessment, decision and
    requirements.  It returns [None] exactly when that run raised. *)
Theorem evaluate_qc_system_contained self content qc_assessment qc_decision
    requirements w :
  ∃ out w1 r,
    pipeline_run (quality_control_evaluator.pipeline self)
      (audited content qc_assessment qc_decision requirements) 1 true w = (out, w1) ∧
    quality_control_evaluator.evaluate_qc_system pipeline_run self
        content qc_assessment qc_decision requirements w
      = (Ok r, w1,
         [EvRun (quality_control_evaluator.pipeline self)
            (audited content qc_assessment qc_decision requirements) 1 true out]) ∧
    (r = None ↔ ∃ exn, out = Raises exn) ∧
    dom (audited content qc_assessment qc_decision requirements)
      = {[ "content"; "qc_assessment"; "qc_decision"; "requirements" ]}.
Proof.
  destruct (pipeline_run (quality_control_evaluator.pipeline self)
              (audited content qc_assessment qc_decision requirements) 1 true w)
    as [out w1] eqn:Hrun.
  eexists out, w1, _. split; [done|].
  split; [by apply evaluate_qc_system_returns|]. split.
  - destruct out as [[m diag]|exn]; split; try done.
    + by intros [exn [=]].
    + intros _. by exists exn.
  - unfold audited, verdict.Schema_of. simpl.
    rewrite !dom_insert_L, dom_empty_L. set_solver.
Qed.

(** X14.  Whenever the pipeline run returns, [evaluate_qc_system] returns
    a dict, never [None]: it has the two sections [meta_evaluation] and
    [failure_analysis], each with its two fields, and a field whose key is
    absent from the result map is the empty string.  A result map without
    the meta judge's choice so yields a dict whose verdict is empty, not a
    missing result. *)
Theorem evaluate_qc_system_fills_defaults self content qc_assessment qc_decision
    requirements w m diag w1 :
  pipeline_run (quality_control_evaluator.pipeline self)
    (audited content qc_assessment qc_decision requirements) 1 true w
    = (Returns (m, diag), w1) →
  ∃ d meta failure,
    (quality_control_evaluator.evaluate_qc_system pipeline_run self
       content qc_assessment qc_decision requirements w).1.1 = Ok (Some d) ∧
    dom d = {[ "meta_evaluation"; "failure_analysis" ]} ∧
    d !! "meta_evaluation" = Some meta ∧
    d !! "failure_analysis" = Some failure ∧
    dom meta = {[ "verdict"; "explanation" ]} ∧
    dom failure = {[ "type"; "explanation" ]} ∧
    meta !! "verdict"
      = Some (default "" (m !! "QCEvaluator_root.block.layer[0].unit[CategoricalJudge MetaJudge]_choice")) ∧
    meta !! "explanation"
      = Some (default "" (m !! "QCEvaluator_root.block.layer[0].unit[CategoricalJudge MetaJudge]_explanation")) ∧
    failure !! "type"
      = Some (default "" (m !! "QCEvaluator_root.block.layer[1].unit[CategoricalJudge FailureAnalyzer]_choice")) ∧
    failure !! "explanation"
      = Some (default "" (m !! "QCEvaluator_root.block.layer[1].unit[CategoricalJudge FailureAnalyzer]_explanation")).
Proof.
  intros Hrun. rewrite (evaluate_qc_system_returns _ _ _ _ _ _ _ _ Hrun).
  destruct (audit_of_sections m) as (Hmeta & Hfailure & _).
  eexists _, _, _. split; [reflexivity|].
  split.
  { unfold audit_of. rewrite dom_insert_L, dom_singleton_L. set_solver. }
  split; [exact Hmeta|]. split; [exact Hfailure|].
  split; [rewrite dom_insert_L, dom_singleton_L; set_solver|].
  split; [rewrite dom_insert_L, dom_singleton_L; set_solver|].
  split; [apply lookup_insert_eq|].
  split; [rewrite lookup_insert_ne by done; apply lookup_singleton_eq|].
  split; [apply lookup_insert_eq|].
  rewrite lookup_insert_ne by done. apply lookup_singleton_eq.
Qed.





End Methods.

(** *** Instances *)

Lemma evaluate_qc_system_fills_defaults_witness :
  ∃ d meta failure,
    (quality_control_evaluator.evaluate_qc_system more_mocks.judge_silent
       quality_control_evaluator.init
       "Na + Cl gives NaCl" "Clear and grade-appropriate." "pass"
       "Balance in all equations" tt).1.1 = Ok (Some d) ∧
    d !! "meta_evaluation" = Some meta ∧
    d !! "failure_analysis" = Some failure ∧
    meta !! "verdict" = Some "" ∧
    failure !! "type" = Some "".
Proof.
  destruct (evaluate_qc_system_fills_defaults more_mocks.judge_silent
              quality_control_evaluator.init
              "Na + Cl gives NaCl" "Clear and grade-appropriate." "pass"
              "Balance in all equations" tt ∅ [] tt eq_refl)
    as (d & meta & failure & Hd & _ & Hmeta & Hfailure & _ & _ & Hv & _ & Ht & _).
  exists d, meta, failure. by rewrite Hv, Ht.
Defined.


End ScriptExtras.
